(** * The leak-search proxy: [main.py], [app.py] and
      [netlify/functions/query.py]

    A shallow embedding of the three request handlers of the repository and
    of the helpers they call ([summarize], [calculate_cost],
    [make_response]), followed by the properties the specification states
    about them.

    - Python [str] values are lists of Unicode code points, so [len] and
      slicing count characters as Python does.
    - Values decoded from JSON are the inductive [json]; a Python [dict] is
      an association list in insertion order (no theorem needs its keys to
      be distinct); a Python [float] is a primitive binary64 float.
    - A Python exception is a value of [exn], with the text CPython 3.11
      gives it; a computation that may raise returns a [result].
    - The single outbound [requests.post] is a node of the program tree
      [io], with the reply of the upstream service fed to its continuation.
    - The library functions whose tables or algorithms are not part of the
      repository (Unicode digit table, [repr] of floats and strings,
      [textwrap.shorten], [int] of a string, [round]) are the fields of a
      [Runtime] record that every definition using them takes as a
      parameter. *)

From Stdlib Require Import List ZArith NArith Bool Lia.
From Stdlib Require Import Ascii String DecimalString.
From Stdlib Require Import PrimFloat SpecFloat FloatOps.
Import ListNotations.

Set Warnings "-register-all,-inexact-float".
Open Scope Z_scope.

(* ================================================================== *)
(** ** Python strings *)

Definition char := N.
Definition pystr := list char.

(** An ASCII literal of the source as a Python string. *)
Definition lit (s : string) : pystr :=
  map N_of_ascii (list_ascii_of_string s).

(** The character U+2026, written as a literal in the source. *)
Definition ellipsis : pystr := [8230%N].

Definition len {A} (l : list A) : Z := Z.of_nat (List.length l).

Definition char_eqb (a b : char) : bool := N.eqb a b.

Fixpoint str_eqb (a b : pystr) : bool :=
  match a, b with
  | [], [] => true
  | x :: a', y :: b' => char_eqb x y && str_eqb a' b'
  | _, _ => false
  end.

Fixpoint startswith (s p : pystr) : bool :=
  match p, s with
  | [], _ => true
  | x :: p', y :: s' => char_eqb x y && startswith s' p'
  | _ :: _, [] => false
  end.

(** [p in s] for two strings. *)
Fixpoint contains (s p : pystr) : bool :=
  startswith s p ||
  match s with
  | [] => false
  | _ :: s' => contains s' p
  end.

(** [str.isspace] of one character: the code points Python treats as
    whitespace in [str.split()] and [str.strip()]. *)
Definition isspace (c : char) : bool :=
  let c := Z.of_N c in
  ((9 <=? c) && (c <=? 13)) || ((28 <=? c) && (c <=? 32))
  || (c =? 133) || (c =? 160) || (c =? 5760)
  || ((8192 <=? c) && (c <=? 8202))
  || (c =? 8232) || (c =? 8233) || (c =? 8239) || (c =? 8287)
  || (c =? 12288).

Fixpoint lstrip (s : pystr) : pystr :=
  match s with
  | c :: s' => if isspace c then lstrip s' else s
  | [] => []
  end.

Definition rstrip (s : pystr) : pystr := rev (lstrip (rev s)).

(** [s.strip()] *)
Definition strip (s : pystr) : pystr := rstrip (lstrip s).

(** [s.split()]: the maximal runs of non-whitespace characters.  [cur] is
    the run being read, reversed. *)
Fixpoint split_ws_from (cur : pystr) (s : pystr) : list pystr :=
  match s with
  | [] => match cur with [] => [] | _ => [rev cur] end
  | c :: s' =>
      if isspace c
      then match cur with
           | [] => split_ws_from [] s'
           | _ => rev cur :: split_ws_from [] s'
           end
      else split_ws_from (c :: cur) s'
  end.

Definition split_ws (s : pystr) : list pystr := split_ws_from [] s.

(** [s.split(sep)[0]] for a one-character separator. *)
Fixpoint before_sep (sep : char) (s : pystr) : pystr :=
  match s with
  | [] => []
  | c :: s' => if char_eqb c sep then [] else c :: before_sep sep s'
  end.

(** [s.split(sep)] for a one-character separator: the pieces between the
    separators, empty pieces included.  [cur] is the piece being read,
    reversed. *)
Fixpoint split_sep_from (sep : char) (cur : pystr) (s : pystr)
  : list pystr :=
  match s with
  | [] => [rev cur]
  | c :: s' =>
      if char_eqb c sep then rev cur :: split_sep_from sep [] s'
      else split_sep_from sep (c :: cur) s'
  end.

Definition split_sep (sep : char) (s : pystr) : list pystr :=
  split_sep_from sep [] s.

(** [sep.join(parts)] *)
Fixpoint join (sep : pystr) (parts : list pystr) : pystr :=
  match parts with
  | [] => []
  | [p] => p
  | p :: rest => p ++ sep ++ join sep rest
  end.

Definition newline : pystr := [10%N].

(** [str(n)] for a Python [int]. *)
Definition str_of_int (n : Z) : pystr :=
  lit (NilZero.string_of_int (Z.to_int n)).

(** [s[:n]] for [n >= 0]. *)
Definition prefix (n : nat) (s : pystr) : pystr := firstn n s.

(* ================================================================== *)
(** ** JSON values and Python dictionaries *)

(** A value as [json.loads], [request.json] or [Response.json()] returns
    it: [None], [bool], [int], [float], [str], [list], [dict]. *)
Inductive json : Type :=
| JNull
| JBool (b : bool)
| JInt (n : Z)
| JFloat (f : float)
| JStr (s : pystr)
| JArr (items : list json)
| JObj (fields : list (pystr * json)).

Definition dict := list (pystr * json).

(** [d.get(k)] as an option: the first (and, in a dict, only) binding. *)
Fixpoint dict_find (d : dict) (k : pystr) : option json :=
  match d with
  | [] => None
  | (k', v) :: d' => if str_eqb k' k then Some v else dict_find d' k
  end.

(** [k in d] *)
Definition dict_has (d : dict) (k : pystr) : bool :=
  match dict_find d k with Some _ => true | None => false end.

(** [d.get(k, default)]; [d.get(k)] is [dict_get d k JNull]. *)
Definition dict_get (d : dict) (k : pystr) (default : json) : json :=
  match dict_find d k with Some v => v | None => default end.

(** [d[k] = v]: an existing key keeps its place, a new key goes last. *)
Fixpoint dict_set (d : dict) (k : pystr) (v : json) : dict :=
  match d with
  | [] => [(k, v)]
  | (k', v') :: d' =>
      if str_eqb k' k then (k', v) :: d' else (k', v') :: dict_set d' k v
  end.

(** Truth value of a Python object: [bool(x)]. *)
Definition truthy (v : json) : bool :=
  match v with
  | JNull => false
  | JBool b => b
  | JInt n => negb (n =? 0)
  | JFloat f => negb (PrimFloat.eqb f 0%float)
  | JStr s => match s with [] => false | _ => true end
  | JArr l => match l with [] => false | _ => true end
  | JObj d => match d with [] => false | _ => true end
  end.

(** [a or b] *)
Definition py_or (a b : json) : json := if truthy a then a else b.

(** [type(x).__name__] *)
Definition type_name (v : json) : pystr :=
  match v with
  | JNull => lit "NoneType"
  | JBool _ => lit "bool"
  | JInt _ => lit "int"
  | JFloat _ => lit "float"
  | JStr _ => lit "str"
  | JArr _ => lit "list"
  | JObj _ => lit "dict"
  end.

(* ================================================================== *)
(** ** Exceptions *)

Inductive exn_class : Type :=
| RequestException
| HTTPError
| ConnectionError
| Timeout
| JSONDecodeError
| ValueError
| TypeError
| AttributeError
| OverflowError
| KeyError
| HTTPException (status_code : Z).

(** An exception object: its class and what [str(e)] gives. *)
Record exn : Type := mkExn { exn_class_of : exn_class; exn_str : pystr }.

(** [isinstance(e, requests.HTTPError)] *)
Definition is_HTTPError (e : exn) : bool :=
  match exn_class_of e with HTTPError => true | _ => false end.

(** [isinstance(e, requests.RequestException)]: the class and its
    subclasses in [requests.exceptions]. *)
Definition is_RequestException (e : exn) : bool :=
  match exn_class_of e with
  | RequestException | HTTPError | ConnectionError | Timeout
  | JSONDecodeError => true
  | _ => false
  end.

Inductive result (A : Type) : Type :=
| Ok (a : A)
| Raise (e : exn).
Arguments Ok {A} a.
Arguments Raise {A} e.

Definition bind {A B} (r : result A) (f : A -> result B) : result B :=
  match r with
  | Ok a => f a
  | Raise e => Raise e
  end.

Notation "'let*' x ':=' r 'in' k" := (bind r (fun x => k))
  (at level 10, x name, r at level 100, k at level 200).

(** [AttributeError] of a missing attribute, as the interpreter words it. *)
Definition no_attribute (v : json) (attr : string) : exn :=
  mkExn AttributeError
    (lit "'" ++ type_name v ++ lit "' object has no attribute '"
         ++ lit attr ++ lit "'").

(** [v.get(k, default)] on an arbitrary value: only a dict has [get]. *)
Definition py_get (v : json) (k : pystr) (default : json) : result json :=
  match v with
  | JObj d => Ok (dict_get d k default)
  | _ => Raise (no_attribute v "get")
  end.

(* ================================================================== *)
(** ** The Python runtime and libraries *)

(** What the handlers use of the interpreter and of the standard library
    but the repository does not contain. *)
Record Runtime : Type := mkRuntime {
  (** [c.isdigit()] for a character outside ASCII (the Unicode table). *)
  unicode_isdigit : char -> bool;
  (** [repr(f)] of a float. *)
  float_repr : float -> pystr;
  (** [repr(s)] of a string. *)
  str_repr : pystr -> pystr;
  (** [textwrap.shorten(text, width=w, placeholder=p)] *)
  textwrap_shorten : pystr -> Z -> pystr -> pystr;
  (** [int(s)] of a string: [None] when the literal is invalid. *)
  int_of_str : pystr -> option Z;
  (** [round(f, ndigits)] *)
  round_float : float -> Z -> float
}.

(** The double nearest to an integer, ties to even. *)
Definition to_float (n : Z) : float :=
  SF2Prim (binary_normalize prec emax n 0 false).

(** Conversion of a Python [int] to a [float]: the interpreter raises
    [OverflowError] when the nearest double would be beyond the largest
    one, that is from [2^1024 - 2^970] on. *)
Definition float_of_int (n : Z) : result float :=
  if Z.abs n <? 2 ^ 1024 - 2 ^ 970
  then Ok (to_float n)
  else Raise (mkExn OverflowError (lit "int too large to convert to float")).

(** [math.sqrt(n)] of a Python [int]. *)
Definition math_sqrt (n : Z) : result float :=
  let* f := float_of_int n in
  if n <? 0
  then Raise (mkExn ValueError (lit "math domain error"))
  else Ok (PrimFloat.sqrt f).

(** [int(f)] of a float: truncation toward zero. *)
Definition int_of_float (f : float) : result Z :=
  match Prim2SF f with
  | S754_zero _ => Ok 0
  | S754_finite s m e =>
      let a := if 0 <=? e then Zpos m * 2 ^ e else Zpos m / 2 ^ (- e) in
      Ok (if s then - a else a)
  | S754_infinity _ =>
      Raise (mkExn OverflowError
                   (lit "cannot convert float infinity to integer"))
  | S754_nan =>
      Raise (mkExn ValueError (lit "cannot convert float NaN to integer"))
  end.

Section WithRuntime.
Variable rt : Runtime.

(** [c.isdigit()] of one character. *)
Definition char_isdigit (c : char) : bool :=
  if (c <? 128)%N then ((48 <=? c) && (c <=? 57))%N
  else unicode_isdigit rt c.

(** [s.isdigit()]: every character is a digit and there is at least one. *)
Definition str_isdigit (s : pystr) : bool :=
  match s with
  | [] => false
  | _ => forallb char_isdigit s
  end.

(** [repr(v)] *)
Fixpoint py_repr (v : json) : pystr :=
  match v with
  | JNull => lit "None"
  | JBool true => lit "True"
  | JBool false => lit "False"
  | JInt n => str_of_int n
  | JFloat f => float_repr rt f
  | JStr s => str_repr rt s
  | JArr l =>
      lit "[" ++ join (lit ", ") (map py_repr l) ++ lit "]"
  | JObj d =>
      lit "{"
      ++ join (lit ", ")
           (map (fun kv => str_repr rt (fst kv) ++ lit ": "
                             ++ py_repr (snd kv)) d)
      ++ lit "}"
  end.

(** [str(v)], which is also how an f-string renders [{v}]. *)
Definition py_str (v : json) : pystr :=
  match v with
  | JStr s => s
  | _ => py_repr v
  end.

(** [int(v)] *)
Definition py_int (v : json) : result Z :=
  match v with
  | JInt n => Ok n
  | JBool b => Ok (if b then 1 else 0)
  | JFloat f => int_of_float f
  | JStr s =>
      match int_of_str rt s with
      | Some n => Ok n
      | None =>
          Raise (mkExn ValueError
                   (lit "invalid literal for int() with base 10: "
                      ++ str_repr rt s))
      end
  | _ =>
      Raise (mkExn TypeError
               (lit "int() argument must be a string, a bytes-like object or a real number, not '"
                  ++ type_name v ++ lit "'"))
  end.

(** *** [json.dumps(obj, ensure_ascii=False)] *)

Definition hex_digit (n : N) : char :=
  (if n <? 10 then 48 + n else 87 + n)%N.

Definition json_escape_char (c : char) : pystr :=
  if (c =? 34)%N then lit "\" ++ [34%N]
  else if (c =? 92)%N then lit "\\"
  else if (c =? 10)%N then lit "\n"
  else if (c =? 13)%N then lit "\r"
  else if (c =? 9)%N then lit "\t"
  else if (c =? 8)%N then lit "\b"
  else if (c =? 12)%N then lit "\f"
  else if (c <? 32)%N
       then lit "\u00" ++ [hex_digit (c / 16)%N; hex_digit (c mod 16)%N]
       else [c].

Definition json_string (s : pystr) : pystr :=
  [34%N] ++ flat_map json_escape_char s ++ [34%N].

Definition json_float (f : float) : pystr :=
  if PrimFloat.is_nan f then lit "NaN"
  else if PrimFloat.is_infinity f
       then (if PrimFloat.ltb f 0%float then lit "-Infinity"
             else lit "Infinity")
       else float_repr rt f.

Fixpoint json_dumps (v : json) : pystr :=
  match v with
  | JNull => lit "null"
  | JBool true => lit "true"
  | JBool false => lit "false"
  | JInt n => str_of_int n
  | JFloat f => json_float f
  | JStr s => json_string s
  | JArr l => lit "[" ++ join (lit ", ") (map json_dumps l) ++ lit "]"
  | JObj d =>
      lit "{"
      ++ join (lit ", ")
           (map (fun kv => json_string (fst kv) ++ lit ": "
                             ++ json_dumps (snd kv)) d)
      ++ lit "}"
  end.

End WithRuntime.

(* ================================================================== *)
(** ** The upstream call *)

(** A [requests.Response]: the attributes and methods the handlers read. *)
Module Response.
Record t : Type := mk {
  status_code : Z;
  reason : pystr;
  url : pystr;
  text : pystr;
  (** [resp.json()]: the decoded body, or the exception it raises. *)
  json_body : result json
}.

(** [resp.ok]: false exactly for the statuses [raise_for_status] rejects. *)
Definition ok (r : t) : bool :=
  negb ((400 <=? status_code r) && (status_code r <? 600)).

(** [resp.raise_for_status()] *)
Definition raise_for_status (r : t) : result unit :=
  let msg kind :=
    str_of_int (status_code r) ++ lit kind ++ reason r
      ++ lit " for url: " ++ url r in
  if (400 <=? status_code r) && (status_code r <? 500)
  then Raise (mkExn HTTPError (msg " Client Error: "%string))
  else if (500 <=? status_code r) && (status_code r <? 600)
       then Raise (mkExn HTTPError (msg " Server Error: "%string))
       else Ok tt.
End Response.

(** What one [requests.post] does: it raises, or it returns a response. *)
Inductive upstream : Type :=
| PostRaised (e : exn)
| Replied (r : Response.t).

(** A handler as a program: it returns, or it posts [payload] as JSON to
    [url] and continues with what the upstream service did. *)
Inductive io (A : Type) : Type :=
| Ret (a : A)
| Post (url : pystr) (payload : json) (timeout : option Z)
       (k : upstream -> io A).
Arguments Ret {A} a.
Arguments Post {A} url payload timeout k.

Fixpoint io_map {A B} (f : A -> B) (p : io A) : io B :=
  match p with
  | Ret a => Ret (f a)
  | Post u payload t k => Post u payload t (fun o => io_map f (k o))
  end.

(** The payloads a program posts, in order, and its final value, when
    every call is answered by [net]. *)
Fixpoint run {A} (net : json -> upstream) (p : io A) : list json * A :=
  match p with
  | Ret a => ([], a)
  | Post _ payload _ k =>
      let (posted, a) := run net (k (net payload)) in
      (payload :: posted, a)
  end.

(** The final value alone, every call being answered by [o]. *)
Definition answer {A} (o : upstream) (p : io A) : A :=
  snd (run (fun _ => o) p).

(** The program performs no upstream call. *)
Definition no_post {A} (p : io A) : Prop :=
  exists a, p = Ret a.

Definition API_URL : pystr := lit "https://leakosintapi.com/".

(** A step that may raise, inside a handler: the exception ends the
    program. *)
Definition io_try {A B} (r : result A) (k : A -> io (result B))
  : io (result B) :=
  match r with
  | Ok a => k a
  | Raise e => Ret (Raise e)
  end.

Notation "'let!' x ':=' r 'in' k" := (io_try r (fun x => k))
  (at level 10, x name, r at level 100, k at level 200).

(** [x in v] for a string [x]. *)
Definition py_in (x : pystr) (v : json) : result bool :=
  match v with
  | JObj d => Ok (dict_has d x)
  | JArr l =>
      Ok (existsb (fun e => match e with
                            | JStr s => str_eqb s x
                            | _ => false
                            end) l)
  | JStr s => Ok (contains s x)
  | _ =>
      Raise (mkExn TypeError
               (lit "argument of type '" ++ type_name v
                  ++ lit "' is not iterable"))
  end.

(** [v[k] = x] for a string key [k]. *)
Definition py_setitem (v : json) (k : pystr) (x : json) : result json :=
  match v with
  | JObj d => Ok (JObj (dict_set d k x))
  | JArr _ =>
      Raise (mkExn TypeError
               (lit "list indices must be integers or slices, not str"))
  | _ =>
      Raise (mkExn TypeError
               (lit "'" ++ type_name v
                  ++ lit "' object does not support item assignment"))
  end.

(* ================================================================== *)
(** ** [app.py]: the cost-aware variant *)

Module app.
Section WithRuntime.
Variable rt : Runtime.

(** The token written in the source as the default of [API_TOKEN]. *)
Definition API_TOKEN_default : pystr := lit "5844553333:b063s6yM".

(** [os.environ.get('API_TOKEN', '5844553333:b063s6yM')] *)
Definition API_TOKEN (env_API_TOKEN : option pystr) : pystr :=
  match env_API_TOKEN with
  | Some t => t
  | None => API_TOKEN_default
  end.

Definition calculate_cost (limit : Z) (query : json) : result float :=
  match query with
  | JStr q =>
      let words :=
        filter (fun word => (4 <=? len word) && negb (str_isdigit rt word))
               (split_ws q) in
      let word_count := len words in
      let complexity :=
        if word_count =? 1 then 1
        else if word_count =? 2 then 5
        else if word_count =? 3 then 16
        else 40 in
      let* root := math_sqrt (limit * complexity) in
      Ok ((5 + root) / 5000)%float
  | _ => Raise (no_attribute query "split")
  end.

(** The body of the [try] in [search], after [requests.post] returned or
    raised: the value handed to [jsonify]. *)
Definition search_try (cost : float) (o : upstream) : result json :=
  match o with
  | PostRaised e => Raise e
  | Replied response =>
      let* result := Response.json_body response in
      let* has_list := py_in (lit "List") result in
      if has_list
      then
        let rounded := JFloat (round_float rt cost 6) in
        let* result := py_setitem result (lit "cost") rounded in
        py_setitem result (lit "balance_impact")
          (JStr (lit "$" ++ py_str rt rounded ++ lit " will be deducted"))
      else Ok result
  end.

(** The [try] statement of [search]: the JSON value handed to [jsonify]
    and the status of the response.  The model stops at that value:
    [jsonify] serialises it, and writes the keys of an object in sorted
    order, so the order of the pairs below is the order of the dict in
    the function, not that of the keys in the body sent. *)
Definition search_respond (cost : float) (o : upstream) : json * Z :=
match search_try cost o with
| Ok result => (result, 200)
| Raise e => (JObj [(lit "error", JStr (exn_str e))], 500)
end.

(** [search]: the JSON value handed to [jsonify] and the status of the
    response, or the exception that leaves the view function. *)
Definition search (env_API_TOKEN : option pystr) (data : json)
  : io (result (json * Z)) :=
let! query := py_get data (lit "query") JNull in
let! limit_field := py_get data (lit "limit") (JInt 100) in
let! limit_int := py_int rt limit_field in
let limit := Z.min limit_int 10000 in
let! lang := py_get data (lit "lang") (JStr (lit "en")) in
if negb (truthy query)
then Ret (Ok (JObj [(lit "error",
                     JStr (lit "Query parameter is required"))], 400))
else
  let! cost := calculate_cost limit query in
  let payload :=
    JObj [(lit "token", JStr (API_TOKEN env_API_TOKEN));
          (lit "request", query);
          (lit "limit", JInt limit);
          (lit "lang", lang)] in
  Post API_URL payload None (fun o => Ret (Ok (search_respond cost o))).

End WithRuntime.
End app.

(* ================================================================== *)
(** ** [summarize]

    [main.py] and [netlify/functions/query.py] each define [summarize];
    the two bodies are the same statement for statement, except for the
    literal that opens the error line, which is [api_error] below. *)

(** [len(v)] *)
Definition py_len (v : json) : result Z :=
  match v with
  | JStr s => Ok (len s)
  | JArr l => Ok (len l)
  | JObj d => Ok (len d)
  | _ =>
      Raise (mkExn TypeError
               (lit "object of type '" ++ type_name v ++ lit "' has no len()"))
  end.

(** [v[:3]] as the sequence [enumerate] walks: a list gives its first
    three items, a string its first three characters, a dict cannot be
    sliced (a [TypeError]; a [KeyError] from Python 3.12 on). *)
Definition py_first3 (v : json) : result (list json) :=
  match v with
  | JArr l => Ok (firstn 3 l)
  | JStr s => Ok (map (fun c => JStr [c]) (firstn 3 s))
  | JObj _ => Raise (mkExn TypeError (lit "unhashable type: 'slice'"))
  | _ =>
      Raise (mkExn TypeError
               (lit "'" ++ type_name v ++ lit "' object is not subscriptable"))
  end.

Section Summarize.
Variable rt : Runtime.
Variable api_error : pystr.

(** [parts.append(s)] *)
Definition append (parts : list pystr) (s : pystr) : list pystr :=
  parts ++ [s].

(** [for k, v in entry.items(): ...] *)
Fixpoint fields_loop (fields : dict) (parts : list pystr) : list pystr :=
  match fields with
  | [] => parts
  | (k, v) :: rest =>
      let s := py_str rt v in
      let s := if 200 <? len s then prefix 200 s ++ ellipsis else s in
      fields_loop rest (append parts (lit "  " ++ k ++ lit ": " ++ s))
  end.

(** [for i, entry in enumerate(data[:3], 1): ...], from index [i]. *)
Fixpoint entries_loop (i : Z) (entries : list json) (parts : list pystr)
  : list pystr :=
  match entries with
  | [] => parts
  | entry :: rest =>
      let parts := append parts (lit " Entry " ++ str_of_int i ++ lit ":") in
      let parts :=
        match entry with
        | JObj fields => fields_loop fields parts
        | _ => append parts (lit "  " ++ py_str rt entry)
        end in
      entries_loop (i + 1) rest parts
  end.

(** [for dbname, dbinfo in resp_json["List"].items(): ...] *)
Fixpoint dbs_loop (items : dict) (parts : list pystr)
  : result (list pystr) :=
  match items with
  | [] => Ok parts
  | (dbname, dbinfo) :: rest =>
      let parts := append parts (lit "== " ++ dbname ++ lit " ==") in
      let* a := py_get dbinfo (lit "InfoLeak") JNull in
      let* ab := if truthy a then Ok a
                 else py_get dbinfo (lit "info") JNull in
      let info_leak := py_or ab (JStr []) in
      let parts :=
        if truthy info_leak
        then append parts (lit "Summary: " ++ py_str rt info_leak)
        else parts in
      let* d := py_get dbinfo (lit "Data") JNull in
      let data := py_or d (JArr []) in
      let* n := py_len data in
      let parts := append parts (lit "Entries: " ++ str_of_int n) in
      let* shown := py_first3 data in
      let parts := entries_loop 1 shown parts in
      let parts :=
        if 3 <? n
        then append parts
               (lit "...and " ++ str_of_int (n - 3) ++ lit " more entries")
        else parts in
      let parts := append parts [] in
      dbs_loop rest parts
  end.

(** [textwrap.shorten(str(resp_json), width=2000, placeholder="…")] *)
Definition fallback (resp_json : json) : pystr :=
  textwrap_shorten rt (py_str rt resp_json) 2000 ellipsis.

Definition summarize (resp_json : json) : result pystr :=
  match resp_json with
  | JObj d =>
      if dict_has d (lit "Error code")
      then
        let err := dict_get d (lit "Error code") JNull in
        let msg :=
          py_or (py_or (dict_get d (lit "Description") JNull)
                       (dict_get d (lit "message") JNull))
                (JStr []) in
        Ok (api_error ++ py_str rt err ++ lit ". " ++ py_str rt msg)
      else
        match dict_find d (lit "List") with
        | Some (JObj dbs) =>
            let* parts := dbs_loop dbs [] in
            Ok (strip (join newline parts))
        | _ => Ok (fallback resp_json)
        end
  | _ => Ok (fallback resp_json)
  end.

End Summarize.

(* ================================================================== *)
(** ** [main.py]: the FastAPI variant *)

Module main.

(** The start of the module: [API_TOKEN = os.getenv("LEAK_API_TOKEN")];
    [None] stands for the [RuntimeError] raised when it is unset or
    empty, which ends the import. *)
Definition load_API_TOKEN (env_LEAK_API_TOKEN : option pystr)
  : option pystr :=
  match env_LEAK_API_TOKEN with
  | Some (c :: token) => Some (c :: token)
  | _ => None
  end.

(** [os.getenv("ALLOWED_ORIGINS", "")] *)
Definition ALLOWED_ORIGINS (env_ALLOWED_ORIGINS : option pystr) : pystr :=
  match env_ALLOWED_ORIGINS with
  | Some s => s
  | None => []
  end.

(** [[o.strip() for o in ALLOWED_ORIGINS.split(",") if o.strip()]] *)
Definition origins (env_ALLOWED_ORIGINS : option pystr) : list pystr :=
  map strip
      (filter (fun o => match strip o with [] => false | _ => true end)
              (split_sep 44%N (ALLOWED_ORIGINS env_ALLOWED_ORIGINS))).

(** [if origins:], the test that installs the CORS middleware. *)
Definition cors_installed (env_ALLOWED_ORIGINS : option pystr) : bool :=
  match origins env_ALLOWED_ORIGINS with
  | [] => false
  | _ => true
  end.

(** [health] *)
Definition health : json := JObj [(lit "status", JStr (lit "ok"))].

Section WithRuntime.
Variable rt : Runtime.

(** The request model; the framework builds it from the inbound JSON
    before [query] runs, with the defaults of absent fields. *)
Record QueryPayload : Type := mkQueryPayload {
  query_ : pystr;
  limit : Z;
  lang : pystr;
  type_ : pystr
}.

(** [QueryPayload(query=..., ...)] with the declared defaults. *)
Definition QueryPayload_init (query : pystr) (limit : option Z)
           (lang type : option pystr) : QueryPayload :=
  mkQueryPayload query
    (match limit with Some n => n | None => 100 end)
    (match lang with Some l => l | None => lit "en" end)
    (match type with Some t => t | None => lit "json" end).

Definition call_leak_api (API_TOKEN : pystr) (query : pystr) (limit : Z)
           (lang out_type : pystr) : io (result json) :=
  let payload :=
    JObj [(lit "token", JStr API_TOKEN);
          (lit "request", JStr query);
          (lit "limit", JInt limit);
          (lit "lang", JStr lang);
          (lit "type", JStr out_type)] in
  Post API_URL payload (Some 30) (fun o =>
    Ret match o with
        | PostRaised e => Raise e
        | Replied resp =>
            let* _ := Response.raise_for_status resp in
            Response.json_body resp
        end).

Definition summarize : json -> result pystr :=
  summarize rt (lit "API error: ").

(** [raise HTTPException(status_code=502, detail=...)] *)
Definition HTTPException_502 {A} (detail : pystr) : result A :=
  Raise (mkExn (HTTPException 502) detail).

(** The [except] clauses of [query] and the statements after the [try],
    applied to what [call_leak_api] returned or raised. *)
Definition query_result (called : result json) : result json :=
match called with
| Raise e =>
    if is_HTTPError e
    then HTTPException_502 (lit "Upstream HTTP error: " ++ exn_str e)
    else if is_RequestException e
         then HTTPException_502
                (lit "Upstream request failed: " ++ exn_str e)
         else Raise e
| Ok raw =>
    let* summary := summarize raw in
    Ok (JObj [(lit "raw", raw); (lit "summary", JStr summary)])
end.

(** [query]: the returned dict, or the exception that leaves the
    function (an [HTTPException] becomes the response of that status). *)
Definition query (API_TOKEN : pystr) (payload : QueryPayload)
  : io (result json) :=
io_map query_result
  (call_leak_api API_TOKEN (query_ payload) (limit payload)
                 (lang payload) (type_ payload)).

End WithRuntime.
End main.

(* ================================================================== *)
(** ** [netlify/functions/query.py]: the serverless variant *)

Module netlify.
Section WithRuntime.
Variable rt : Runtime.

(** The environment variables the function reads ([os.getenv]). *)
Record environ : Type := mkEnviron {
  LEAK_API_TOKEN : option pystr;
  ALLOWED_ORIGINS : option pystr
}.

(** The inbound event: its [httpMethod], and what [json.loads] makes of
    [event.get("body") or ""] (the decoded payload, or the exception). *)
Record event : Type := mkEvent {
  httpMethod : option pystr;
  body_loads : result json
}.

(** The dict a Netlify function returns. *)
Record response : Type := mkResponse {
  statusCode : Z;
  headers : list (pystr * pystr);
  body : pystr
}.

Definition make_response (status_code : Z) (body_obj : json)
           (origin : option pystr) : response :=
  let allow_origin :=
    match origin with
    | Some (c :: o) => c :: o
    | _ => lit "*"
    end in
  mkResponse status_code
    [(lit "Content-Type", lit "application/json");
     (lit "Access-Control-Allow-Origin", allow_origin);
     (lit "Access-Control-Allow-Methods", lit "GET, POST, OPTIONS");
     (lit "Access-Control-Allow-Headers", lit "Content-Type, Authorization")]
    (json_dumps rt body_obj).

Definition summarize : json -> result pystr :=
  summarize rt (lit "API Error: ").

(** [os.getenv("ALLOWED_ORIGINS", "")] *)
Definition getenv_origins (env : environ) : pystr :=
  match ALLOWED_ORIGINS env with
  | Some s => s
  | None => []
  end.

(** [allowed_origin] as the handler computes it before parsing. *)
Definition allowed_origin (env : environ) : option pystr :=
  let allowed_origins := strip (getenv_origins env) in
  match allowed_origins with
  | [] => None
  | _ => Some (strip (before_sep 44%N allowed_origins))
  end.

(** What the handler does once [requests.post] returned or raised. *)
Definition after_post (origin : option pystr) (o : upstream)
  : result response :=
  match o with
  | PostRaised e =>
      if is_RequestException e
      then Ok (make_response 502
                 (JObj [(lit "error", JStr (lit "Upstream request failed"));
                        (lit "detail", JStr (exn_str e))])
                 origin)
      else Raise e
  | Replied resp =>
      if negb (Response.ok resp)
      then
        let text := Response.text resp in
        let truncated :=
          if len text <=? 1000 then text
          else prefix 1000 text ++ ellipsis in
        Ok (make_response 502
              (JObj [(lit "error", JStr (lit "Upstream returned non-200"));
                     (lit "status_code", JInt (Response.status_code resp));
                     (lit "text", JStr truncated)])
              origin)
      else
        match Response.json_body resp with
        | Raise _ =>
            let raw_text := Response.text resp in
            Ok (make_response 200
                  (JObj [(lit "raw", JStr raw_text);
                         (lit "summary",
                          JStr (textwrap_shorten rt raw_text 2000
                                                 (lit " [...]")))])
                  origin)
        | Ok resp_json =>
            let* summary := summarize resp_json in
            Ok (make_response 200
                  (JObj [(lit "raw", resp_json);
                         (lit "summary", JStr summary)])
                  origin)
        end
  end.

(** The body of the outer [try] of [handler]. *)
Definition handler_try (env : environ) (ev : event)
  : io (result response) :=
  if match httpMethod ev with
     | Some m => str_eqb m (lit "OPTIONS")
     | None => false
     end
  then Ret (Ok (make_response 200 (JObj [(lit "ok", JBool true)]) None))
  else
  let origin := allowed_origin env in
  match LEAK_API_TOKEN env with
  | None | Some [] =>
      Ret (Ok (make_response 500
                 (JObj [(lit "error",
                         JStr (lit "Server misconfiguration: missing LEAK_API_TOKEN"))])
                 origin))
  | Some token =>
  match body_loads ev with
  | Raise _ =>
      Ret (Ok (make_response 400
                 (JObj [(lit "error",
                         JStr (lit "Invalid JSON. Expected application/json with 'query' field."))])
                 origin))
  | Ok payload =>
      let! q := py_get payload (lit "query") JNull in
      let! query := if truthy q then Ok q
                    else py_get payload (lit "request") JNull in
      if negb (truthy query)
      then Ret (Ok (make_response 400
                      (JObj [(lit "error",
                              JStr (lit "Missing 'query' field in request body."))])
                      origin))
      else
        let! limit_field := py_get payload (lit "limit") (JInt 100) in
        let! limit := py_int rt limit_field in
        let! lang := py_get payload (lit "lang") (JStr (lit "en")) in
        let! out_type := py_get payload (lit "type") (JStr (lit "json")) in
        let upstream_payload :=
          JObj [(lit "token", JStr token);
                (lit "request", JStr (py_str rt query));
                (lit "limit", JInt limit);
                (lit "lang", lang);
                (lit "type", out_type)] in
        Post API_URL upstream_payload (Some 30) (fun o =>
          Ret (after_post origin o))
  end
  end.

(** The origin the catch-all clause passes to [make_response]. *)
Definition catch_all_origin (env : environ) : option pystr :=
  match strip (getenv_origins env) with
  | [] => Some (lit "*")
  | _ => Some (strip (before_sep 44%N (getenv_origins env)))
  end.

(** The catch-all [except Exception] clause of [handler]. *)
Definition catch_all (env : environ) (r : result response) : response :=
match r with
| Ok resp => resp
| Raise e =>
    make_response 500
      (JObj [(lit "error", JStr (lit "Internal server error"));
             (lit "detail", JStr (exn_str e))])
      (catch_all_origin env)
end.

Definition handler (env : environ) (ev : event) : io response :=
io_map (catch_all env) (handler_try env ev).

End WithRuntime.
End netlify.

(* ================================================================== *)
(** ** The specification's vocabulary

    The definitions of this part follow the words of the specification;
    the theorems compare them with the code above. *)

(** The payload of the first upstream call of a program, if it makes one. *)
Definition first_payload {A} (p : io A) : option json :=
  match p with
  | Post _ payload _ _ => Some payload
  | Ret _ => None
  end.

(** A field of a JSON object. *)
Definition get_field (v : json) (k : string) : option json :=
  match v with
  | JObj d => dict_find d (lit k)
  | _ => None
  end.

(** The limit forwarded upstream. *)
Definition forwarded_limit {A} (p : io A) : option json :=
  match first_payload p with
  | Some payload => get_field payload "limit"
  | None => None
  end.

(** *** Cost estimator (specification section 4.4) *)

(** Complexity score of a word count: 1 to 1, 2 to 5, 3 to 16, else 40. *)
Definition complexity_of (wordCount : Z) : Z :=
  match wordCount with
  | 1 => 1
  | 2 => 5
  | 3 => 16
  | _ => 40
  end.

(** A token is purely numeric when all its characters are digits. *)
Definition purely_numeric (rt : Runtime) (token : pystr) : bool :=
  forallb (char_isdigit rt) token.

(** The number of whitespace-separated tokens of length at least 4 that
    are not purely numeric. *)
Definition wordCount (rt : Runtime) (query : pystr) : Z :=
  Z.of_nat
    (List.length
       (filter (fun token => (4 <=? len token) && negb (purely_numeric rt token))
               (split_ws query))).

(** [(5 + sqrt(limit * complexity)) / 5000] *)
Definition cost_formula (limit complexity : Z) : float :=
  ((5 + PrimFloat.sqrt (to_float (limit * complexity))) / 5000)%float.

(** *** Summarizer (specification section 4.3) *)

(** The first non-empty of two fields of an object, empty when neither is. *)
Definition first_non_empty (d : dict) (k1 k2 : string) : json :=
  match dict_find d (lit k1) with
  | Some v1 =>
      if truthy v1 then v1
      else match dict_find d (lit k2) with
           | Some v2 => if truthy v2 then v2 else JStr []
           | None => JStr []
           end
  | None =>
      match dict_find d (lit k2) with
      | Some v2 => if truthy v2 then v2 else JStr []
      | None => JStr []
      end
  end.

Definition header_line (dbname : pystr) : pystr :=
  lit "== " ++ dbname ++ lit " ==".

Definition summary_lines (rt : Runtime) (info : dict) : list pystr :=
  let text := first_non_empty info "InfoLeak" "info" in
  if truthy text then [lit "Summary: " ++ py_str rt text] else [].

(** The [Data] sequence of a database; empty when missing or null. *)
Definition data_of (info : dict) : list json :=
  match dict_find info (lit "Data") with
  | Some (JArr l) => l
  | _ => []
  end.

Definition entries_line (n : Z) : pystr := lit "Entries: " ++ str_of_int n.

(** A value string cut to 200 characters, with the ellipsis when cut. *)
Definition clip200 (s : pystr) : pystr :=
  if 200 <? len s then firstn 200 s ++ ellipsis else s.

Definition field_line (rt : Runtime) (kv : pystr * json) : pystr :=
  lit "  " ++ fst kv ++ lit ": " ++ clip200 (py_str rt (snd kv)).

Definition entry_line (i : Z) : pystr :=
  lit " Entry " ++ str_of_int i ++ lit ":".

(** The block of entry number [i]. *)
Definition entry_block (rt : Runtime) (i : Z) (entry : json) : list pystr :=
  entry_line i ::
  match entry with
  | JObj fields => map (field_line rt) fields
  | _ => [lit "  " ++ py_str rt entry]
  end.

(** The blocks of consecutive entries, numbered from [i]. *)
Fixpoint entry_blocks (rt : Runtime) (i : Z) (entries : list json)
  : list pystr :=
  match entries with
  | [] => []
  | e :: rest => entry_block rt i e ++ entry_blocks rt (i + 1) rest
  end.

Definition more_lines (n : Z) : list pystr :=
  if 3 <? n
  then [lit "...and " ++ str_of_int (n - 3) ++ lit " more entries"]
  else [].

(** The lines of one database: header, summary, count, the blocks of at
    most the first three entries, the "more" line, and a blank line. *)
Definition db_block (rt : Runtime) (db : pystr * json) : list pystr :=
  match snd db with
  | JObj info =>
      let data := data_of info in
      [header_line (fst db)] ++ summary_lines rt info
        ++ [entries_line (len data)]
        ++ entry_blocks rt 1 (firstn 3 data)
        ++ more_lines (len data) ++ [[]]
  | _ => []
  end.

(** A database object whose [Data] is a sequence, null or missing. *)
Definition db_ok (db : pystr * json) : bool :=
  match snd db with
  | JObj info =>
      match dict_find info (lit "Data") with
      | None | Some JNull | Some (JArr _) => true
      | Some _ => false
      end
  | _ => false
  end.

(** A database object whose [Data] is null or missing. *)
Definition data_absent (info : dict) : Prop :=
  dict_find info (lit "Data") = None
  \/ dict_find info (lit "Data") = Some JNull.

(** The lines of a text, and how many of them contain a given word. *)
Fixpoint lines_from (cur : pystr) (s : pystr) : list pystr :=
  match s with
  | [] => [rev cur]
  | c :: s' =>
      if char_eqb c 10%N then rev cur :: lines_from [] s'
      else lines_from (c :: cur) s'
  end.

Definition lines (s : pystr) : list pystr := lines_from [] s.

Definition count_lines_with (word : string) (s : pystr) : nat :=
  List.length (filter (fun l => contains l (lit word)) (lines s)).

(** *** Upstream errors (specification section 4.2) *)

(** The copy of an upstream error body that the serverless handler
    returns: the body itself up to 1000 characters, else its first 1000
    characters and the ellipsis. *)
Definition truncate_1000 (text : pystr) : pystr :=
  if len text <=? 1000 then text else firstn 1000 text ++ ellipsis.

(** *** Cost fields (specification sections 4.4 and 4.5) *)

(** The text of the [balance_impact] field for a rounded cost. *)
Definition balance_text (rt : Runtime) (rounded : float) : pystr :=
  lit "$" ++ float_repr rt rounded ++ lit " will be deducted".

(** An upstream body with the [cost], rounded to 6 decimal places, and the
    [balance_impact] fields set. *)
Definition with_cost (rt : Runtime) (cost : float) (m : dict) : dict :=
  let rounded := round_float rt cost 6 in
  dict_set (dict_set m (lit "cost") (JFloat rounded))
           (lit "balance_impact") (JStr (balance_text rt rounded)).

(** The token is configured: set and not empty. *)
Definition configured (token : option pystr) : bool :=
  match token with
  | Some (_ :: _) => true
  | _ => false
  end.

(** The request is a CORS preflight. *)
Definition is_preflight (ev : netlify.event) : bool :=
  match netlify.httpMethod ev with
  | Some m => str_eqb m (lit "OPTIONS")
  | None => false
  end.

(* ================================================================== *)
(** ** Vocabulary of the further properties *)

(** A program that posts at most once, to the upstream URL, and returns
    after the reply. *)
Definition posts_at_most_once {A} (p : io A) : Prop :=
  match p with
  | Ret _ => True
  | Post u _ _ k => u = API_URL /\ forall o, exists a, k o = Ret a
  end.

(** The value of a header. *)
Fixpoint header_get (headers : list (pystr * pystr)) (name : pystr)
  : option pystr :=
  match headers with
  | [] => None
  | (n, v) :: rest => if str_eqb n name then Some v else header_get rest name
  end.

(** A string without leading or trailing whitespace. *)
Definition stripped (s : pystr) : Prop := lstrip s = s /\ rstrip s = s.

(** The first entry of [ALLOWED_ORIGINS], stripped. *)
Definition first_origin (env : netlify.environ) : pystr :=
  strip (before_sep 44%N (netlify.getenv_origins env)).

(** An origin, or the wildcard when there is none. *)
Definition origin_or_star (origin : pystr) : pystr :=
  match origin with
  | [] => lit "*"
  | _ => origin
  end.

(** The keys of a JSON object, in order. *)
Definition keys_of (v : json) : list pystr :=
  match v with
  | JObj d => map fst d
  | _ => []
  end.

Definition is_str (v : option json) : bool :=
  match v with Some (JStr _) => true | _ => false end.

Definition is_int (v : option json) : bool :=
  match v with Some (JInt _) => true | _ => false end.

(** A database the loop of [summarize] gets through: an object whose
    [Data] is falsy, a list or a string. *)
Definition db_safe (db : pystr * json) : bool :=
  match snd db with
  | JObj info =>
      match py_or (dict_get info (lit "Data") JNull) (JArr []) with
      | JArr _ | JStr _ => true
      | _ => false
      end
  | _ => false
  end.

(** A value [summarize] gets through: anything but an object that has no
    "Error code", has an object as [List] and an unsafe database in it. *)
Definition summarize_safe (v : json) : bool :=
  match v with
  | JObj d =>
      dict_has d (lit "Error code")
      || match dict_find d (lit "List") with
         | Some (JObj dbs) => forallb db_safe dbs
         | _ => true
         end
  | _ => true
  end.

(* ================================================================== *)
(** ** Example data *)

(** A runtime to run the model on the examples below.  It is not a model
    of the interpreter: its table is empty and its functions are the
    simplest of their types ([round] and [textwrap.shorten] return their
    argument).  The inputs of the examples are ASCII strings and integers,
    so that what they show does not rest on these choices; an example that
    reads a field of the runtime names it in its statement. *)
Definition sample_rt : Runtime :=
  {| unicode_isdigit := fun _ => false;
     float_repr := fun _ => lit "0.0";
     str_repr := fun s => lit "'" ++ s ++ lit "'";
     textwrap_shorten := fun s _ _ => s;
     int_of_str := fun _ => None;
     round_float := fun f _ => f |}.

(** [{"Error code": "ERR_TOKEN", "Description": "bad token"}] *)
Definition error_reply : json :=
  JObj [(lit "Error code", JStr (lit "ERR_TOKEN"));
        (lit "Description", JStr (lit "bad token"))].

Definition record_a (v : string) : json := JObj [(lit "a", JStr (lit v))].

(** The database [{"InfoLeak": "desc", "Data": [{"a":"1"}, ..., {"a":"4"}]}] *)
Definition db1_info : json :=
  JObj [(lit "InfoLeak", JStr (lit "desc"));
        (lit "Data",
         JArr [record_a "1"; record_a "2"; record_a "3"; record_a "4"])].

(** [{"List": {"DB1": ...}}] *)
Definition db1_reply : json := JObj [(lit "List", JObj [(lit "DB1", db1_info)])].

(** What the summarizers make of [db1_reply]. *)
Definition db1_summary : pystr :=
  join newline
    [lit "== DB1 =="; lit "Summary: desc"; lit "Entries: 4";
     lit " Entry 1:"; lit "  a: 1";
     lit " Entry 2:"; lit "  a: 2";
     lit " Entry 3:"; lit "  a: 3";
     lit "...and 1 more entries"].

(** [{"List": {"A": {"info": "x"}, "B": {"Data": null}, "C": ...DB1...}}] *)
Definition three_dbs : dict :=
  [(lit "A", JObj [(lit "info", JStr (lit "x"))]);
   (lit "B", JObj [(lit "Data", JNull)]);
   (lit "C", db1_info)].

(** A POST event whose body decodes to [payload]. *)
Definition post_event (payload : json) : netlify.event :=
  netlify.mkEvent (Some (lit "POST")) (Ok payload).

(** An environment with the token [token] and no origin list. *)
Definition env_with_token (token : string) : netlify.environ :=
  netlify.mkEnviron (Some (lit token)) None.

(** An upstream response with the given status, text and decoded body. *)
Definition reply (status : Z) (text : pystr) (decoded : result json)
  : upstream :=
  Replied (Response.mk status (lit "") API_URL text decoded).

Definition not_json : result json :=
  Raise (mkExn JSONDecodeError (lit "Expecting value: line 1 column 1 (char 0)")).

(** An upstream error body of 1001 characters. *)
Definition long_body : pystr := repeat 120%N 1001.

(** A request for the query "alice" with the default limit. *)
Definition alice_request : json := JObj [(lit "query", JStr (lit "alice"))].

(** An upstream body that has a [List] and already has a [cost] field. *)
Definition priced_body : json :=
  JObj [(lit "List", JObj []); (lit "cost", JStr (lit "free"))].

(* ================================================================== *)
(** ** Basic facts *)

Lemma str_eqb_refl (s : pystr) : str_eqb s s = true.
Proof.
  induction s as [|c s IH]; simpl; [reflexivity|].
  unfold char_eqb. now rewrite N.eqb_refl.
Qed.

Lemma str_eqb_eq (a b : pystr) : str_eqb a b = true <-> a = b.
Proof.
  split.
  - revert b. induction a as [|x a IH]; intros [|y b]; simpl; try easy.
    intros H. apply andb_true_iff in H as [Hxy Hab].
    apply N.eqb_eq in Hxy. f_equal; auto.
  - intros ->. apply str_eqb_refl.
Qed.

Lemma str_eqb_neq (a b : pystr) : a <> b -> str_eqb a b = false.
Proof.
  intros H. destruct (str_eqb a b) eqn:E; [|reflexivity].
  apply str_eqb_eq in E. contradiction.
Qed.

Lemma dict_find_set_same (d : dict) (k : pystr) (v : json) :
  dict_find (dict_set d k v) k = Some v.
Proof.
  induction d as [|[k' v'] d IH]; simpl.
  - now rewrite str_eqb_refl.
  - destruct (str_eqb k' k) eqn:E; simpl; rewrite E; auto.
Qed.

Lemma dict_find_set_other (d : dict) (k k0 : pystr) (v : json) :
  k0 <> k -> dict_find (dict_set d k v) k0 = dict_find d k0.
Proof.
  intros Hne. induction d as [|[k' v'] d IH]; simpl.
  - rewrite str_eqb_neq; auto.
  - destruct (str_eqb k' k) eqn:E; simpl.
    + apply str_eqb_eq in E. subst k'. rewrite str_eqb_neq; auto.
    + destruct (str_eqb k' k0); auto.
Qed.

Lemma len_app {A} (a b : list A) : len (a ++ b) = len a + len b.
Proof. unfold len. rewrite length_app. lia. Qed.

Lemma len_firstn {A} (n : nat) (l : list A) :
  len (firstn n l) = Z.min (Z.of_nat n) (len l).
Proof. unfold len. rewrite length_firstn. lia. Qed.

(* ================================================================== *)
(** ** The cost estimator *)

Section CostEstimator.
Variable rt : Runtime.

Lemma significant_word (w : pystr) :
  (4 <=? len w) && negb (str_isdigit rt w)
  = (4 <=? len w) && negb (purely_numeric rt w).
Proof.
  destruct w as [|c w]; [reflexivity|]. reflexivity.
Qed.

Lemma word_count_spec (q : pystr) :
  len (filter (fun word => (4 <=? len word) && negb (str_isdigit rt word))
              (split_ws q))
  = wordCount rt q.
Proof.
  unfold wordCount, len at 1. do 2 f_equal.
  apply filter_ext. intros w. apply significant_word.
Qed.

Lemma complexity_chain (n : Z) :
  (if n =? 1 then 1
   else if n =? 2 then 5 else if n =? 3 then 16 else 40)
  = complexity_of n.
Proof.
  destruct n as [|p|p]; try reflexivity.
  destruct p as [[]|[]|]; reflexivity.
Qed.

Lemma complexity_range (n : Z) : 1 <= complexity_of n <= 40.
Proof.
  destruct n as [|p|p]; try (simpl; lia).
  destruct p as [[]|[]|]; simpl; lia.
Qed.

Lemma math_sqrt_ok (n : Z) :
  0 <= n < 2 ^ 1010 -> math_sqrt n = Ok (PrimFloat.sqrt (to_float n)).
Proof.
  intros [H0 H1]. unfold math_sqrt, float_of_int.
  assert (Hb : (2 ^ 1010 < 2 ^ 1024 - 2 ^ 970)%Z) by reflexivity.
  replace (Z.abs n <? 2 ^ 1024 - 2 ^ 970) with true
    by (symmetry; apply Z.ltb_lt; rewrite Z.abs_eq by assumption;
        eapply Z.lt_trans; eassumption).
  simpl. replace (n <? 0) with false by (symmetry; now apply Z.ltb_ge).
  reflexivity.
Qed.

Lemma math_sqrt_negative (n : Z) :
  - 2 ^ 1010 < n < 0 ->
  math_sqrt n = Raise (mkExn ValueError (lit "math domain error")).
Proof.
  intros [H0 H1]. unfold math_sqrt, float_of_int.
  assert (Hb : (2 ^ 1010 < 2 ^ 1024 - 2 ^ 970)%Z) by reflexivity.
  replace (Z.abs n <? 2 ^ 1024 - 2 ^ 970) with true
    by (symmetry; apply Z.ltb_lt; rewrite Z.abs_neq by (apply Z.lt_le_incl; assumption);
        eapply Z.lt_trans; [|eassumption]; apply Z.opp_lt_mono;
        rewrite Z.opp_involutive; assumption).
  simpl. replace (n <? 0) with true by (symmetry; now apply Z.ltb_lt).
  reflexivity.
Qed.

Lemma calculate_cost_unfold (limit : Z) (q : pystr) :
  app.calculate_cost rt limit (JStr q)
  = (let* root := math_sqrt (limit * complexity_of (wordCount rt q)) in
     Ok ((5 + root) / 5000)%float).
Proof.
  unfold app.calculate_cost. cbv zeta.
  rewrite complexity_chain, word_count_spec. reflexivity.
Qed.

Lemma calculate_cost_ok (limit : Z) (q : pystr) :
  0 <= limit < 2 ^ 1000 ->
  app.calculate_cost rt limit (JStr q)
  = Ok (cost_formula limit (complexity_of (wordCount rt q))).
Proof.
  intros [H0 H1]. rewrite calculate_cost_unfold.
  pose proof (complexity_range (wordCount rt q)) as Hc.
  rewrite math_sqrt_ok; [reflexivity|].
  split; [apply Z.mul_nonneg_nonneg; lia|].
  apply Z.le_lt_trans with (limit * 40).
  - apply Z.mul_le_mono_nonneg_l; lia.
  - apply Z.lt_le_trans with (2 ^ 1000 * 40).
    + apply Z.mul_lt_mono_pos_r; [reflexivity|assumption].
    + now vm_compute.
Qed.

End CostEstimator.




(* ================================================================== *)
(** ** The summarizer: the loops against the blocks of the specification *)

Section SummarizeFacts.
Variable rt : Runtime.

Lemma fields_loop_spec (fields : dict) (parts : list pystr) :
  fields_loop rt fields parts = parts ++ map (field_line rt) fields.
Proof.
  revert parts. induction fields as [|[k v] fields IH]; intros parts; simpl.
  - now rewrite app_nil_r.
  - rewrite IH. unfold append. now rewrite <- app_assoc.
Qed.

Lemma entries_loop_spec (entries : list json) :
  forall i parts,
    entries_loop rt i entries parts = parts ++ entry_blocks rt i entries.
Proof.
  induction entries as [|e entries IH]; intros i parts; simpl.
  - now rewrite app_nil_r.
  - rewrite IH. unfold append, entry_block.
    destruct e; try rewrite fields_loop_spec;
      repeat rewrite <- app_assoc; reflexivity.
Qed.

(** The [a or b or ""] chain of the loop is the first non-empty field. *)
Lemma or_chain_spec (d : dict) (k1 k2 : string) :
  py_or (if truthy (dict_get d (lit k1) JNull)
         then dict_get d (lit k1) JNull
         else dict_get d (lit k2) JNull) (JStr [])
  = first_non_empty d k1 k2.
Proof.
  unfold first_non_empty, dict_get, py_or.
  destruct (dict_find d (lit k1)) as [v1|];
    [destruct (truthy v1) eqn:E1; [now rewrite E1|]|simpl];
    destruct (dict_find d (lit k2)) as [v2|]; try reflexivity;
    now destruct (truthy v2).
Qed.

(** The value bound to [data] in the loop, for a well-formed database. *)
Lemma data_or_empty (info : dict) :
  db_ok ([], JObj info) = true ->
  py_or (dict_get info (lit "Data") JNull) (JArr [])
  = JArr (data_of info).
Proof.
  unfold db_ok, data_of, dict_get, py_or. simpl.
  destruct (dict_find info (lit "Data")) as [[]|]; try discriminate;
    try reflexivity.
  now destruct items.
Qed.

(** One turn of the loop over the databases. *)
Lemma dbs_loop_step (db : pystr * json) (rest : dict) (parts : list pystr) :
  db_ok db = true ->
  dbs_loop rt (db :: rest) parts
  = dbs_loop rt rest (parts ++ db_block rt db).
Proof.
  destruct db as [dbname dbinfo]. intros Hok.
  destruct dbinfo as [| | | | | |info]; try discriminate Hok.
  cbn [dbs_loop py_get bind].
  assert (Hor : forall a b : json,
             (let* ab := if truthy a then Ok a else Ok b in
              @Ok json ab) = Ok (if truthy a then a else b))
    by (intros a b; now destruct (truthy a)).
  destruct (truthy (dict_get info (lit "InfoLeak") JNull)) eqn:Ea;
    cbn [bind];
    pose proof (or_chain_spec info "InfoLeak" "info") as Hc;
    rewrite Ea in Hc; rewrite Hc;
    rewrite (data_or_empty info Hok);
    cbn [py_len py_first3 bind];
    rewrite entries_loop_spec;
    unfold db_block, summary_lines, more_lines, append, header_line,
      entries_line; cbn [fst snd];
    destruct (truthy (first_non_empty info "InfoLeak" "info"));
    destruct (3 <? len (data_of info));
    f_equal; repeat rewrite <- app_assoc; reflexivity.
Qed.

Lemma dbs_loop_spec (dbs : dict) :
  forall parts,
    forallb db_ok dbs = true ->
    dbs_loop rt dbs parts = Ok (parts ++ flat_map (db_block rt) dbs).
Proof.
  induction dbs as [|db dbs IH]; intros parts Hok.
  - simpl. now rewrite app_nil_r.
  - simpl in Hok. apply andb_true_iff in Hok as [Hdb Hrest].
    rewrite dbs_loop_step by assumption.
    rewrite IH by assumption. simpl. now rewrite <- app_assoc.
Qed.

(** The loop over a concatenation runs the first part, then the second
    from the lines reached. *)
Lemma dbs_loop_app (pre post : dict) :
  forall parts,
    dbs_loop rt (pre ++ post) parts
    = (let* reached := dbs_loop rt pre parts in
       dbs_loop rt post reached).
Proof.
  induction pre as [|[dbname dbinfo] pre IH]; intros parts;
    [reflexivity|].
  cbn [app dbs_loop].
  destruct (py_get dbinfo (lit "InfoLeak") JNull) as [a|e];
    [|reflexivity]; cbn [bind].
  destruct (if truthy a then Ok a else py_get dbinfo (lit "info") JNull)
    as [ab|e]; [|reflexivity]; cbn [bind].
  destruct (py_get dbinfo (lit "Data") JNull) as [d|e];
    [|reflexivity]; cbn [bind].
  destruct (py_len (py_or d (JArr []))) as [n|e];
    [|reflexivity]; cbn [bind].
  destruct (py_first3 (py_or d (JArr []))) as [shown|e];
    [|reflexivity]; cbn [bind].
  apply IH.
Qed.

(** The lines of a database without data. *)
Lemma db_block_absent (dbname : pystr) (info : dict) :
  data_absent info ->
  db_ok (dbname, JObj info) = true
  /\ db_block rt (dbname, JObj info)
     = header_line dbname :: summary_lines rt info
         ++ [lit "Entries: 0"; []].
Proof.
  unfold db_ok, db_block, data_of. cbn [fst snd].
  intros [H|H]; rewrite H; split; reflexivity.
Qed.

Variable api_error : pystr.

Lemma summarize_error (d : dict) :
  dict_has d (lit "Error code") = true ->
  summarize rt api_error (JObj d)
  = Ok (api_error ++ py_str rt (dict_get d (lit "Error code") JNull)
          ++ lit ". "
          ++ py_str rt (first_non_empty d "Description" "message")).
Proof.
  intros H. unfold summarize. rewrite H. do 5 f_equal.
  clear H. unfold first_non_empty, dict_get, py_or.
  destruct (dict_find d (lit "Description")) as [v1|];
    [destruct (truthy v1) eqn:E1; [now cbn [truthy]; rewrite ?E1|]|];
    cbn [truthy];
    destruct (dict_find d (lit "message")) as [v2|]; try reflexivity;
    destruct (truthy v2) eqn:E2; try reflexivity.
Qed.

Lemma summarize_list (d dbs : dict) :
  dict_has d (lit "Error code") = false ->
  dict_find d (lit "List") = Some (JObj dbs) ->
  summarize rt api_error (JObj d)
  = (let* parts := dbs_loop rt dbs [] in Ok (strip (join newline parts))).
Proof.
  intros He Hl. unfold summarize. now rewrite He, Hl.
Qed.

End SummarizeFacts.

(* ================================================================== *)
(** ** The error line of the summarizers *)

(** C6 (a defect of [netlify/functions/query.py]).  For every JSON object
    containing an "Error code" field, the summarizer of [main.py] returns
    exactly "API error: <code>. <description>", where <description> is
    the first non-empty of the "Description" and "message" fields (empty
    when neither is present); on
    [{"Error code": "ERR_TOKEN", "Description": "bad token"}] it returns
    exactly "API error: ERR_TOKEN. bad token".  The copy of the function
    in [netlify/functions/query.py] breaks the claim on that very input:
    it returns "API Error: ERR_TOKEN. bad token", with a capital E. *)
Theorem error_summary (rt : Runtime) :
  (forall d : dict,
      dict_has d (lit "Error code") = true ->
      let code := py_str rt (dict_get d (lit "Error code") JNull) in
      let description :=
        py_str rt (first_non_empty d "Description" "message") in
      main.summarize rt (JObj d)
      = Ok (lit "API error: " ++ code ++ lit ". " ++ description))
  /\ main.summarize rt error_reply
     = Ok (lit "API error: ERR_TOKEN. bad token")
  /\ netlify.summarize rt error_reply
     = Ok (lit "API Error: ERR_TOKEN. bad token")
  /\ netlify.summarize rt error_reply
     <> Ok (lit "API error: ERR_TOKEN. bad token").
Proof.
  split; [|split; [reflexivity|split; [reflexivity | discriminate]]].
  intros d H code description.
  exact (summarize_error rt (lit "API error: ") d H).
Qed.

Lemma error_summary_witness :
  dict_has [(lit "Error code", JInt 7); (lit "message", JStr (lit "quota"))]
           (lit "Error code") = true
  /\ main.summarize sample_rt
       (JObj [(lit "Error code", JInt 7); (lit "message", JStr (lit "quota"))])
     = Ok (lit "API error: 7. quota").
Proof.
  split; [reflexivity|].
  exact (proj1 (error_summary sample_rt)
               [(lit "Error code", JInt 7);
                (lit "message", JStr (lit "quota"))]
               eq_refl).
Defined.

(* ================================================================== *)
(** ** The database listing of the summarizers *)

Lemma length_firstn3 {A} (l : list A) :
  len (firstn 3 l) = Z.min 3 (len l).
Proof. apply (len_firstn 3). Qed.

Lemma more_lines_iff (n : Z) : more_lines n <> [] <-> 3 < n.
Proof.
  unfold more_lines. destruct (Z.ltb_spec 3 n); split; intros H';
    try easy; lia.
Qed.

(** C7, as stated, fails on an object that also has an "Error code"
    field: the summarizer returns the error line and lists no database. *)
Lemma error_code_hides_list :
  main.summarize sample_rt
    (JObj [(lit "Error code", JStr (lit "E"));
           (lit "List", JObj [(lit "DB1", db1_info)])])
  = Ok (lit "API error: E. ")
  /\ contains (lit "API error: E. ") (lit "== DB1 ==") = false.
Proof. split; reflexivity. Qed.

(** C7 (amended).  For every JSON object without an "Error code" field
    whose [List] field is a mapping of database names to database objects
    (each with a [Data] sequence, or none), both summarizers return the
    lines of the databases in iteration order, joined by newlines and
    stripped.  The lines of a database are: a header line with its name,
    the optional summary line, an "Entries: <N>" line with N the length of
    its [Data] sequence, the entry blocks of the first min(N, 3) entries,
    a "...and <N-3> more entries" line exactly when N > 3, and a blank
    line.  In particular, on a single database "DB1" with InfoLeak "desc"
    and 4 entries the output contains "== DB1 ==", "Summary: desc",
    "Entries: 4", exactly 3 Entry lines, and ends with the line
    "...and 1 more entries". *)
Theorem list_summary (rt : Runtime) (d dbs : dict) :
  dict_has d (lit "Error code") = false ->
  dict_find d (lit "List") = Some (JObj dbs) ->
  forallb db_ok dbs = true ->
  (main.summarize rt (JObj d)
   = Ok (strip (join newline (flat_map (db_block rt) dbs)))
   /\ netlify.summarize rt (JObj d)
      = Ok (strip (join newline (flat_map (db_block rt) dbs))))
  /\ (forall dbname info,
         In (dbname, JObj info) dbs ->
         let data := data_of info in
         db_block rt (dbname, JObj info)
         = [header_line dbname] ++ summary_lines rt info
             ++ [entries_line (len data)]
             ++ entry_blocks rt 1 (firstn 3 data)
             ++ more_lines (len data) ++ [[]]
         /\ len (firstn 3 data) = Z.min 3 (len data)
         /\ (more_lines (len data) <> [] <-> 3 < len data)
         /\ (3 < len data ->
             more_lines (len data)
             = [lit "...and " ++ str_of_int (len data - 3)
                  ++ lit " more entries"]))
  /\ (main.summarize rt db1_reply = Ok db1_summary
      /\ netlify.summarize rt db1_reply = Ok db1_summary
      /\ contains db1_summary (lit "== DB1 ==") = true
      /\ contains db1_summary (lit "Summary: desc") = true
      /\ contains db1_summary (lit "Entries: 4") = true
      /\ count_lines_with "Entry" db1_summary = 3%nat
      /\ last (lines db1_summary) [] = lit "...and 1 more entries").
Proof.
  intros He Hl Hok. split; [|split].
  - unfold main.summarize, netlify.summarize.
    rewrite !(summarize_list rt _ d dbs He Hl).
    rewrite (dbs_loop_spec rt dbs [] Hok). split; reflexivity.
  - intros dbname info _ data. split; [reflexivity|].
    split; [apply length_firstn3|]. split; [apply more_lines_iff|].
    intros H. unfold more_lines.
    now replace (3 <? len data) with true by (symmetry; now apply Z.ltb_lt).
  - repeat split; reflexivity.
Qed.

Lemma list_summary_witness :
  dict_has [(lit "List", JObj [(lit "DB1", db1_info)])] (lit "Error code")
  = false
  /\ forallb db_ok [(lit "DB1", db1_info)] = true
  /\ main.summarize sample_rt db1_reply
     = Ok (strip (join newline
                    (flat_map (db_block sample_rt) [(lit "DB1", db1_info)]))).
Proof.
  split; [reflexivity|]. split; [reflexivity|].
  exact (proj1 (proj1 (list_summary sample_rt
                         [(lit "List", JObj [(lit "DB1", db1_info)])]
                         [(lit "DB1", db1_info)]
                         eq_refl eq_refl eq_refl))).
Defined.

(* ================================================================== *)
(** ** A database without data *)

(** C10, as stated, fails on an object that also has an "Error code"
    field: the summarizer returns the error line, with no "Entries: 0"
    line for the database. *)
Lemma error_code_hides_empty_database :
  netlify.summarize sample_rt
    (JObj [(lit "Error code", JInt 3);
           (lit "List", JObj [(lit "DB", JObj [])])])
  = Ok (lit "API Error: 3. ")
  /\ contains (lit "API Error: 3. ") (lit "Entries: 0") = false.
Proof. split; reflexivity. Qed.

(** C10 (amended).  For every JSON object without an "Error code" field
    whose [List] field maps a database name to a database object in which
    the [Data] field is missing or null, the summarizers do not fail at
    that database: its lines are the header, the optional summary line,
    "Entries: 0" and the blank line, with no Entry line and no
    "...more entries" line, and the loop continues with the remaining
    databases from there.  When every database of [List] is such an
    object, the summarizers return a text. *)
Theorem missing_data_is_empty (rt : Runtime) (d pre post : dict)
        (dbname : pystr) (info : dict) :
  dict_has d (lit "Error code") = false ->
  dict_find d (lit "List") = Some (JObj (pre ++ (dbname, JObj info) :: post)) ->
  data_absent info ->
  let lines_of_db :=
    header_line dbname :: summary_lines rt info ++ [lit "Entries: 0"; []] in
  let summary :=
    let* reached := dbs_loop rt pre [] in
    let* parts := dbs_loop rt post (reached ++ lines_of_db) in
    Ok (strip (join newline parts)) in
  main.summarize rt (JObj d) = summary
  /\ netlify.summarize rt (JObj d) = summary
  /\ (forallb db_ok pre = true -> forallb db_ok post = true ->
      main.summarize rt (JObj d)
      = Ok (strip (join newline
                     (flat_map (db_block rt) pre ++ lines_of_db
                        ++ flat_map (db_block rt) post))))
  /\ existsb (fun l => startswith l (lit " Entry")) lines_of_db = false
  /\ existsb (fun l => startswith l (lit "...and")) lines_of_db = false.
Proof.
  intros He Hl Habs lines_of_db summary.
  destruct (db_block_absent rt dbname info Habs) as [Hok Hblock].
  assert (Hsum : forall api, summarize rt api (JObj d) = summary).
  { intros api. rewrite (summarize_list rt api d _ He Hl).
    rewrite dbs_loop_app. unfold summary.
    destruct (dbs_loop rt pre []) as [reached|e]; [|reflexivity].
    cbn [bind]. rewrite dbs_loop_step by assumption.
    now rewrite Hblock. }
  split; [apply Hsum|]. split; [apply Hsum|]. split.
  - intros Hpre Hpost. unfold main.summarize. rewrite Hsum. unfold summary.
    rewrite (dbs_loop_spec rt pre [] Hpre). cbn [bind app].
    rewrite (dbs_loop_spec rt post _ Hpost). cbn [bind].
    now rewrite <- app_assoc.
  - unfold lines_of_db, summary_lines.
    destruct (truthy (first_non_empty info "InfoLeak" "info"));
      split; reflexivity.
Qed.

Lemma missing_data_is_empty_witness :
  dict_has [(lit "List", JObj three_dbs)] (lit "Error code") = false
  /\ data_absent [(lit "Data", JNull)]
  /\ main.summarize sample_rt (JObj [(lit "List", JObj three_dbs)])
     = Ok (join newline
             [lit "== A =="; lit "Summary: x"; lit "Entries: 0"; [];
              lit "== B =="; lit "Entries: 0"; [];
              lit "== C =="; lit "Summary: desc"; lit "Entries: 4";
              lit " Entry 1:"; lit "  a: 1";
              lit " Entry 2:"; lit "  a: 2";
              lit " Entry 3:"; lit "  a: 3";
              lit "...and 1 more entries"]).
Proof.
  split; [reflexivity|]. split; [right; reflexivity|].
  exact (proj1 (missing_data_is_empty sample_rt
                  [(lit "List", JObj three_dbs)]
                  [(lit "A", JObj [(lit "info", JStr (lit "x"))])]
                  [(lit "C", db1_info)]
                  (lit "B") [(lit "Data", JNull)]
                  eq_refl eq_refl (or_intror eq_refl))).
Defined.

(* ================================================================== *)
(** ** The handlers around the upstream call *)

(** One case split on the next test of a handler that is known to post. *)
Ltac handler_case H :=
  match type of H with
  | io_map _ (io_try ?r _) = _ =>
      let E := fresh "E" in
      destruct r eqn:E; cbn [io_try io_map] in H; try discriminate H
  | io_map _ (if ?b then _ else _) = _ =>
      let E := fresh "E" in
      destruct b eqn:E; cbn [io_map] in H; try discriminate H
  | io_map _ (match ?x with _ => _ end) = _ =>
      let E := fresh "E" in
      destruct x eqn:E; cbn [io_map] in H; try discriminate H
  | io_try ?r _ = _ =>
      let E := fresh "E" in
      destruct r eqn:E; cbn [io_try] in H; try discriminate H
  | (if ?b then _ else _) = _ =>
      let E := fresh "E" in
      destruct b eqn:E; try discriminate H
  end.

Section HandlerFacts.
Variable rt : Runtime.

(** When the serverless handler posts, it is configured, the request is
    not a preflight, and the reply goes through [after_post] and the
    catch-all clause. *)
Lemma netlify_handler_post env ev u p t k :
  netlify.handler rt env ev = Post u p t k ->
  u = API_URL /\ t = Some 30
  /\ (forall o,
         k o = Ret (netlify.catch_all rt env
                      (netlify.after_post rt (netlify.allowed_origin env) o)))
  /\ configured (netlify.LEAK_API_TOKEN env) = true
  /\ is_preflight ev = false
  /\ get_field p "token" = option_map JStr (netlify.LEAK_API_TOKEN env).
Proof.
  unfold netlify.handler, netlify.handler_try. intros H.
  fold (is_preflight ev) in H.
  repeat handler_case H.
  all: injection H as <- <- <- <-.
  all: repeat split; reflexivity.
Qed.

(** What the serverless handler does with a request that passes the
    checks: one POST of the payload built from the request. *)
Lemma netlify_handler_valid env ev token d q limit :
  netlify.LEAK_API_TOKEN env = Some token -> token <> [] ->
  is_preflight ev = false ->
  netlify.body_loads ev = Ok (JObj d) ->
  dict_find d (lit "query") = Some q -> truthy q = true ->
  py_int rt (dict_get d (lit "limit") (JInt 100)) = Ok limit ->
  netlify.handler rt env ev
  = Post API_URL
      (JObj [(lit "token", JStr token);
             (lit "request", JStr (py_str rt q));
             (lit "limit", JInt limit);
             (lit "lang", dict_get d (lit "lang") (JStr (lit "en")));
             (lit "type", dict_get d (lit "type") (JStr (lit "json")))])
      (Some 30)
      (fun o => Ret (netlify.catch_all rt env
                       (netlify.after_post rt (netlify.allowed_origin env) o))).
Proof.
  intros Ht Hne Hpre Hbody Hq Htruthy Hlim.
  unfold netlify.handler, netlify.handler_try.
  fold (is_preflight ev). rewrite Hpre, Ht, Hbody.
  destruct token as [|c token]; [congruence|].
  assert (Hget : dict_get d (lit "query") JNull = q)
    by (unfold dict_get; now rewrite Hq).
  cbn [py_get io_try]. rewrite Hget, Htruthy.
  cbn [io_try negb]. rewrite Htruthy. cbn [negb]. rewrite Hlim.
  reflexivity.
Qed.

(** When [search] posts, the request had a query and a limit, the cost
    was computed from the forwarded limit, and the reply goes through
    [search_respond]. *)
Lemma app_search_post env data u p t k :
  app.search rt env data = Post u p t k ->
  exists query limit_int lang cost,
    p = JObj [(lit "token", JStr (app.API_TOKEN env));
              (lit "request", query);
              (lit "limit", JInt (Z.min limit_int 10000));
              (lit "lang", lang)]
    /\ app.calculate_cost rt (Z.min limit_int 10000) query = Ok cost
    /\ k = (fun o => Ret (Ok (app.search_respond rt cost o))).
Proof.
  unfold app.search. intros H.
  repeat handler_case H.
  injection H as <- <- <- <-.
  repeat eexists; eassumption.
Qed.

Lemma app_search_valid env d q limit_int :
  dict_find d (lit "query") = Some (JStr q) -> q <> [] ->
  py_int rt (dict_get d (lit "limit") (JInt 100)) = Ok limit_int ->
  0 <= limit_int ->
  app.search rt env (JObj d)
  = Post API_URL
      (JObj [(lit "token", JStr (app.API_TOKEN env));
             (lit "request", JStr q);
             (lit "limit", JInt (Z.min limit_int 10000));
             (lit "lang", dict_get d (lit "lang") (JStr (lit "en")))])
      None
      (fun o =>
         Ret (Ok (app.search_respond rt
                    (cost_formula (Z.min limit_int 10000)
                                  (complexity_of (wordCount rt q))) o))).
Proof.
  intros Hq Hne Hlim H0. unfold app.search.
  assert (Hget : dict_get d (lit "query") JNull = JStr q)
    by (unfold dict_get; now rewrite Hq).
  cbn [py_get io_try]. rewrite Hget, Hlim.
  cbn [io_try]. destruct q as [|c q]; [congruence|]. cbn [truthy negb].
  rewrite calculate_cost_ok; [reflexivity|].
  split; [lia|]. apply Z.le_lt_trans with 10000; [lia|reflexivity].
Qed.

Lemma main_query_post tok payload :
  main.query rt tok payload
  = Post API_URL
      (JObj [(lit "token", JStr tok);
             (lit "request", JStr (main.query_ payload));
             (lit "limit", JInt (main.limit payload));
             (lit "lang", JStr (main.lang payload));
             (lit "type", JStr (main.type_ payload))])
      (Some 30)
      (fun o =>
         Ret (main.query_result rt
                match o with
                | PostRaised e => Raise e
                | Replied resp =>
                    let* _ := Response.raise_for_status resp in
                    Response.json_body resp
                end)).
Proof. reflexivity. Qed.

Lemma raise_for_status_ok (r : Response.t) :
  Response.ok r = true -> Response.raise_for_status r = Ok tt.
Proof.
  unfold Response.ok, Response.raise_for_status. intros H.
  apply negb_true_iff in H.
  destruct (400 <=? Response.status_code r) eqn:E4;
    [|now replace (500 <=? Response.status_code r) with false
        by (symmetry; apply Z.leb_gt; apply Z.leb_gt in E4; lia)].
  cbn [andb] in *. rewrite H.
  replace (Response.status_code r <? 500) with false
    by (symmetry; apply Z.ltb_ge; apply Z.ltb_ge in H; lia).
  now rewrite andb_false_r.
Qed.

Lemma raise_for_status_error (r : Response.t) :
  Response.ok r = false ->
  exists kind,
    (kind = " Client Error: "%string \/ kind = " Server Error: "%string)
    /\ Response.raise_for_status r
       = Raise (mkExn HTTPError
                  (str_of_int (Response.status_code r) ++ lit kind
                     ++ Response.reason r ++ lit " for url: "
                     ++ Response.url r)).
Proof.
  unfold Response.ok, Response.raise_for_status. intros H.
  apply negb_false_iff, andb_true_iff in H as [H4 H6].
  rewrite H4, H6. cbn [andb].
  destruct (Response.status_code r <? 500) eqn:E5.
  - exists " Client Error: "%string. split; [now left | reflexivity].
  - replace (500 <=? Response.status_code r) with true
      by (symmetry; apply Z.leb_le; apply Z.ltb_ge in E5; lia).
    exists " Server Error: "%string. split; [now right | reflexivity].
Qed.

End HandlerFacts.

(* ================================================================== *)
(** ** Requests without a query *)

(** C3, as stated, fails for the serverless variant when the body has no
    [query] field and carries the query under [request]: the handler
    takes that field instead and posts it upstream. *)
Lemma request_alias_reaches_upstream :
  get_field (JObj [(lit "request", JStr (lit "alice"))]) "query" = None
  /\ first_payload
       (netlify.handler sample_rt (env_with_token "secret")
          (post_event (JObj [(lit "request", JStr (lit "alice"))])))
     = Some (JObj [(lit "token", JStr (lit "secret"));
                   (lit "request", JStr (lit "alice"));
                   (lit "limit", JInt 100);
                   (lit "lang", JStr (lit "en"));
                   (lit "type", JStr (lit "json"))]).
Proof. split; reflexivity. Qed.

(** C3 (amended).  For every inbound request body that is a JSON object
    whose query field is missing, null or the empty string: the serverless
    variant, when its token is configured, the request is not a preflight
    and the [request] field is missing or empty as well, responds with
    status 400 and the JSON body [{"error": "Missing 'query' field in
    request body."}]; the cost-aware variant, when the limit field is
    absent or converts to an integer, responds with status 400 and the
    JSON body [{"error": "Query parameter is required"}]; in both no POST
    to the upstream API is performed. *)
Theorem missing_query_rejected (rt : Runtime) :
  (forall env ev d,
      configured (netlify.LEAK_API_TOKEN env) = true ->
      is_preflight ev = false ->
      netlify.body_loads ev = Ok (JObj d) ->
      truthy (dict_get d (lit "query") JNull) = false ->
      truthy (dict_get d (lit "request") JNull) = false ->
      let response :=
        netlify.make_response rt 400
          (JObj [(lit "error",
                  JStr (lit "Missing 'query' field in request body."))])
          (netlify.allowed_origin env) in
      netlify.handler rt env ev = Ret response
      /\ netlify.statusCode response = 400
      /\ no_post (netlify.handler rt env ev))
  /\ (forall env d n,
         truthy (dict_get d (lit "query") JNull) = false ->
         py_int rt (dict_get d (lit "limit") (JInt 100)) = Ok n ->
         app.search rt env (JObj d)
         = Ret (Ok (JObj [(lit "error",
                           JStr (lit "Query parameter is required"))], 400))
         /\ no_post (app.search rt env (JObj d))).
Proof.
  split.
  - intros env ev d Hc Hpre Hbody Hq Hr response.
    assert (H : netlify.handler rt env ev = Ret response).
    { unfold netlify.handler, netlify.handler_try.
      fold (is_preflight ev). rewrite Hpre.
      destruct (netlify.LEAK_API_TOKEN env) as [[|c token]|];
        try discriminate.
      rewrite Hbody. cbn [py_get io_try]. rewrite Hq. cbn [io_try].
      rewrite Hr. reflexivity. }
    split; [exact H|]. split; [reflexivity|].
    exists response. exact H.
  - intros env d n Hq Hn.
    assert (H : app.search rt env (JObj d)
                = Ret (Ok (JObj [(lit "error",
                                  JStr (lit "Query parameter is required"))],
                           400))).
    { unfold app.search. cbn [py_get io_try]. rewrite Hn. cbn [io_try].
      rewrite Hq. reflexivity. }
    split; [exact H|]. eexists. exact H.
Qed.

Lemma missing_query_rejected_witness :
  (configured (netlify.LEAK_API_TOKEN (env_with_token "secret")) = true
   /\ truthy (dict_get [(lit "query", JStr [])] (lit "query") JNull) = false)
  /\ netlify.handler sample_rt (env_with_token "secret")
       (post_event (JObj [(lit "query", JStr [])]))
     = Ret (netlify.make_response sample_rt 400
              (JObj [(lit "error",
                      JStr (lit "Missing 'query' field in request body."))])
              None).
Proof.
  split; [split; reflexivity|].
  exact (proj1 (proj1 (missing_query_rejected sample_rt)
                  (env_with_token "secret")
                  (post_event (JObj [(lit "query", JStr [])]))
                  [(lit "query", JStr [])]
                  eq_refl eq_refl eq_refl eq_refl eq_refl)).
Defined.

(* ================================================================== *)
(** ** Upstream replies that are not JSON *)

(** C8, as stated, fails for the FastAPI variant: [call_leak_api] lets the
    decoding error of [resp.json()] out, and [query] answers 502. *)
Lemma fastapi_rejects_non_json :
  answer (reply 200 (lit "<html>") not_json)
         (main.query sample_rt (lit "secret")
            (main.QueryPayload_init (lit "alice") None None None))
  = Raise (mkExn (HTTPException 502)
             (lit "Upstream request failed: Expecting value: line 1 column 1 (char 0)")).
Proof. reflexivity. Qed.

(** C8 (amended).  For every upstream reply with a success HTTP status
    whose body is not valid JSON, the serverless handler does not fail the
    request: it responds 200 with the raw upstream text and, in place of a
    structured summary, the text shortened to 2000 characters.  The
    FastAPI handler does not degrade: it raises [HTTPException] 502 when
    the decoding error is a [requests] exception and lets it out
    otherwise; the cost-aware handler responds 500 with the text of the
    error. *)
Theorem non_json_reply (rt : Runtime) :
  (forall env ev u p t k r e,
      netlify.handler rt env ev = Post u p t k ->
      Response.ok r = true ->
      Response.json_body r = Raise e ->
      let response :=
        netlify.make_response rt 200
          (JObj [(lit "raw", JStr (Response.text r));
                 (lit "summary",
                  JStr (textwrap_shorten rt (Response.text r) 2000
                                         (lit " [...]")))])
          (netlify.allowed_origin env) in
      k (Replied r) = Ret response /\ netlify.statusCode response = 200)
  /\ (forall token payload r e,
         Response.ok r = true ->
         Response.json_body r = Raise e ->
         answer (Replied r) (main.query rt token payload)
         = if is_HTTPError e
           then main.HTTPException_502
                  (lit "Upstream HTTP error: " ++ exn_str e)
           else if is_RequestException e
                then main.HTTPException_502
                       (lit "Upstream request failed: " ++ exn_str e)
                else Raise e)
  /\ (forall env data u p t k r e,
         app.search rt env data = Post u p t k ->
         Response.json_body r = Raise e ->
         k (Replied r)
         = Ret (Ok (JObj [(lit "error", JStr (exn_str e))], 500))).
Proof.
  split; [|split].
  - intros env ev u p t k r e H Hok Hjson response.
    apply netlify_handler_post in H as (_ & _ & Hk & _).
    rewrite Hk. unfold netlify.after_post. rewrite Hok, Hjson.
    split; reflexivity.
  - intros token payload r e Hok Hjson.
    rewrite main_query_post. unfold answer. cbn [run snd].
    rewrite (raise_for_status_ok r Hok). cbn [bind]. rewrite Hjson.
    reflexivity.
  - intros env data u p t k r e H Hjson.
    apply app_search_post in H as (query & n & lang & cost & _ & _ & ->).
    unfold app.search_respond, app.search_try. rewrite Hjson. reflexivity.
Qed.

Lemma non_json_reply_witness :
  exists k,
    netlify.handler sample_rt (env_with_token "secret")
                    (post_event alice_request)
    = Post API_URL
        (JObj [(lit "token", JStr (lit "secret"));
               (lit "request", JStr (lit "alice"));
               (lit "limit", JInt 100);
               (lit "lang", JStr (lit "en"));
               (lit "type", JStr (lit "json"))])
        (Some 30) k
    /\ k (reply 200 (lit "<html>") not_json)
       = Ret (netlify.make_response sample_rt 200
                (JObj [(lit "raw", JStr (lit "<html>"));
                       (lit "summary", JStr (lit "<html>"))])
                None).
Proof.
  eexists. split; [reflexivity|].
  exact (proj1 (proj1 (non_json_reply sample_rt)
                  (env_with_token "secret") (post_event alice_request)
                  _ _ _ _
                  (Response.mk 200 (lit "") API_URL (lit "<html>") not_json)
                  _ eq_refl eq_refl eq_refl)).
Defined.

(* ================================================================== *)
(** ** Upstream replies with an error status *)

Lemma truncate_1000_short (text : pystr) :
  len text <= 1000 -> truncate_1000 text = text.
Proof.
  intros H. unfold truncate_1000.
  now replace (len text <=? 1000) with true by (symmetry; now apply Z.leb_le).
Qed.

Lemma truncate_1000_long (text : pystr) :
  1000 < len text ->
  truncate_1000 text = firstn 1000 text ++ ellipsis
  /\ len (truncate_1000 text) = 1001.
Proof.
  intros H. unfold truncate_1000.
  replace (len text <=? 1000) with false by (symmetry; now apply Z.leb_gt).
  split; [reflexivity|].
  rewrite len_app, len_firstn. change (len ellipsis) with 1.
  change (Z.of_nat 1000) with 1000. lia.
Qed.

(** C9, as stated, fails in both variants that test the status.  On an
    upstream error body of more than 1000 characters, the copy in the
    response of the serverless handler is its first 1000 characters
    followed by the ellipsis, 1001 characters; and the response of the
    FastAPI handler carries no copy of the body at all. *)
Lemma error_body_copy_not_within_1000 :
  (exists copy,
      answer (reply 500 long_body not_json)
             (netlify.handler sample_rt (env_with_token "secret")
                              (post_event alice_request))
      = netlify.make_response sample_rt 502
          (JObj [(lit "error", JStr (lit "Upstream returned non-200"));
                 (lit "status_code", JInt 500);
                 (lit "text", JStr copy)])
          None
      /\ len copy = 1001)
  /\ answer (reply 500 (lit "quota exceeded") not_json)
            (main.query sample_rt (lit "secret")
               (main.QueryPayload_init (lit "alice") None None None))
     = Raise (mkExn (HTTPException 502)
                (lit "Upstream HTTP error: 500 Server Error:  for url: https://leakosintapi.com/")).
Proof.
  split; [|reflexivity].
  exists (repeat 120%N 1000 ++ ellipsis). split; vm_compute; reflexivity.
Qed.

(** C9 (amended).  For every upstream reply with a non-success HTTP
    status, the serverless handler responds 502 with a JSON body carrying
    the upstream status code and, as [text], the upstream response body
    itself when it has at most 1000 characters, else its first 1000
    characters followed by one ellipsis character (1001 characters).  The
    FastAPI handler responds 502 with a detail message that carries the
    status code, the reason and the URL, and no copy of the body. *)
Theorem upstream_error_reply (rt : Runtime) :
  (forall env ev u p t k r,
      netlify.handler rt env ev = Post u p t k ->
      Response.ok r = false ->
      let response :=
        netlify.make_response rt 502
          (JObj [(lit "error", JStr (lit "Upstream returned non-200"));
                 (lit "status_code", JInt (Response.status_code r));
                 (lit "text", JStr (truncate_1000 (Response.text r)))])
          (netlify.allowed_origin env) in
      k (Replied r) = Ret response /\ netlify.statusCode response = 502)
  /\ (forall text,
         (len text <= 1000 -> truncate_1000 text = text)
         /\ (1000 < len text ->
             truncate_1000 text = firstn 1000 text ++ ellipsis
             /\ len (truncate_1000 text) = 1001)
         /\ len (truncate_1000 text) <= 1001)
  /\ (forall token payload r,
         Response.ok r = false ->
         exists kind,
           (kind = " Client Error: "%string
            \/ kind = " Server Error: "%string)
           /\ answer (Replied r) (main.query rt token payload)
              = main.HTTPException_502
                  (lit "Upstream HTTP error: "
                     ++ str_of_int (Response.status_code r) ++ lit kind
                     ++ Response.reason r ++ lit " for url: "
                     ++ Response.url r)).
Proof.
  split; [|split].
  - intros env ev u p t k r H Hok response.
    apply netlify_handler_post in H as (_ & _ & Hk & _).
    rewrite Hk. unfold netlify.after_post. rewrite Hok.
    split; reflexivity.
  - intros text. split; [apply truncate_1000_short|].
    split; [apply truncate_1000_long|].
    destruct (Z.le_gt_cases (len text) 1000) as [H|H].
    + rewrite truncate_1000_short by assumption. lia.
    + apply truncate_1000_long in H as [_ ->]. lia.
  - intros token payload r Hok.
    destruct (raise_for_status_error r Hok) as (kind & Hkind & Hraise).
    exists kind. split; [exact Hkind|].
    rewrite main_query_post. unfold answer. cbn [run snd].
    rewrite Hraise. reflexivity.
Qed.

Lemma upstream_error_reply_witness :
  exists k,
    netlify.handler sample_rt (env_with_token "secret")
                    (post_event alice_request)
    = Post API_URL
        (JObj [(lit "token", JStr (lit "secret"));
               (lit "request", JStr (lit "alice"));
               (lit "limit", JInt 100);
               (lit "lang", JStr (lit "en"));
               (lit "type", JStr (lit "json"))])
        (Some 30) k
    /\ k (reply 503 (lit "busy") not_json)
       = Ret (netlify.make_response sample_rt 502
                (JObj [(lit "error", JStr (lit "Upstream returned non-200"));
                       (lit "status_code", JInt 503);
                       (lit "text", JStr (lit "busy"))])
                None).
Proof.
  eexists. split; [reflexivity|].
  exact (proj1 (proj1 (upstream_error_reply sample_rt)
                  (env_with_token "secret") (post_event alice_request)
                  _ _ _ _
                  (Response.mk 503 (lit "") API_URL (lit "busy") not_json)
                  eq_refl eq_refl)).
Defined.

(* ================================================================== *)
(** ** The cost fields of the cost-aware variant *)

Lemma lit_cost_neq_balance : lit "cost" <> lit "balance_impact".
Proof. discriminate. Qed.

Lemma with_cost_find (rt : Runtime) (cost : float) (m : dict) :
  dict_find (with_cost rt cost m) (lit "cost")
  = Some (JFloat (round_float rt cost 6))
  /\ dict_find (with_cost rt cost m) (lit "balance_impact")
     = Some (JStr (balance_text rt (round_float rt cost 6)))
  /\ forall key,
       key <> lit "cost" -> key <> lit "balance_impact" ->
       dict_find (with_cost rt cost m) key = dict_find m key.
Proof.
  unfold with_cost. cbv zeta. split; [|split].
  - rewrite dict_find_set_other by exact lit_cost_neq_balance.
    apply dict_find_set_same.
  - apply dict_find_set_same.
  - intros key Hc Hb. now rewrite !dict_find_set_other by assumption.
Qed.

(** C5, as stated, fails on an upstream body that has a [List] and
    already has a [cost] field: that field is overwritten by the rounded
    cost of the request. *)
Lemma upstream_cost_field_overwritten :
  get_field priced_body "cost" = Some (JStr (lit "free"))
  /\ app.calculate_cost sample_rt 100 (JStr (lit "alice")) = Ok 0.003%float
  /\ exists body,
       answer (reply 200 [] (Ok priced_body))
              (app.search sample_rt None alice_request)
       = Ok (body, 200)
       /\ get_field body "cost"
          = Some (JFloat (round_float sample_rt 0.003 6))
       /\ get_field body "cost" <> get_field priced_body "cost".
Proof.
  split; [reflexivity|]. split; [reflexivity|].
  eexists. split; [reflexivity|]. split; [reflexivity | discriminate].
Qed.

(** C5 (amended).  In the cost-aware variant, for every upstream JSON
    object, the 200 response body equals the upstream body with the [cost]
    (rounded to 6 decimal places) and [balance_impact] fields set if and
    only if the upstream body has a [List] key; when [List] is absent the
    upstream body is returned with every field unchanged; in both cases
    every pre-existing field of the upstream body other than [cost] and
    [balance_impact] is unchanged (an upstream [cost] or [balance_impact]
    is overwritten when [List] is present).  The statement is about the
    fields of the body and their values; the order in which [jsonify]
    writes the keys is not part of it. *)
Theorem cost_fields_frame (rt : Runtime) env data u p t k :
  app.search rt env data = Post u p t k ->
  exists limit query cost,
    get_field p "limit" = Some (JInt limit)
    /\ get_field p "request" = Some query
    /\ app.calculate_cost rt limit query = Ok cost
    /\ forall r m,
        Response.json_body r = Ok (JObj m) ->
        let body := if dict_has m (lit "List") then with_cost rt cost m
                    else m in
        k (Replied r) = Ret (Ok (JObj body, 200))
        /\ (dict_has m (lit "List") = true ->
            dict_find body (lit "cost")
            = Some (JFloat (round_float rt cost 6))
            /\ dict_find body (lit "balance_impact")
               = Some (JStr (balance_text rt (round_float rt cost 6))))
        /\ (dict_has m (lit "List") = false ->
            forall key, dict_find body key = dict_find m key)
        /\ (forall key,
               key <> lit "cost" -> key <> lit "balance_impact" ->
               dict_find body key = dict_find m key).
Proof.
  intros H.
  apply app_search_post in H as (query & n & lang & cost & -> & Hcost & ->).
  exists (Z.min n 10000), query, cost.
  split; [reflexivity|]. split; [reflexivity|]. split; [exact Hcost|].
  intros r m Hjson body.
  destruct (with_cost_find rt cost m) as (Hc & Hb & Hframe).
  split; [|split; [|split]].
  - unfold app.search_respond, app.search_try. rewrite Hjson.
    cbn [bind py_in]. subst body.
    destruct (dict_has m (lit "List")); reflexivity.
  - intros Hl. subst body. rewrite Hl. now split.
  - intros Hl key. subst body. now rewrite Hl.
  - intros key Hkc Hkb. subst body.
    destruct (dict_has m (lit "List")); [now apply Hframe | reflexivity].
Qed.

Lemma cost_fields_frame_witness :
  exists k,
    app.search sample_rt None alice_request
    = Post API_URL
        (JObj [(lit "token", JStr app.API_TOKEN_default);
               (lit "request", JStr (lit "alice"));
               (lit "limit", JInt 100);
               (lit "lang", JStr (lit "en"))])
        None k
    /\ exists cost,
        app.calculate_cost sample_rt 100 (JStr (lit "alice")) = Ok cost
        /\ k (reply 200 [] (Ok (JObj [(lit "List", JObj [])])))
           = Ret (Ok (JObj (with_cost sample_rt cost [(lit "List", JObj [])]),
                      200)).
Proof.
  eexists. split; [reflexivity|].
  destruct (cost_fields_frame sample_rt None alice_request _ _ _ _ eq_refl)
    as (limit & query & cost & Hlimit & Hquery & Hcost & Hreply).
  injection Hlimit as <-. injection Hquery as <-.
  exists cost. split; [exact Hcost|].
  exact (proj1 (Hreply
                  (Response.mk 200 (lit "") API_URL []
                     (Ok (JObj [(lit "List", JObj [])])))
                  [(lit "List", JObj [])] eq_refl)).
Defined.

(* ================================================================== *)
(** ** The token and the responses *)

(** C1, as stated, fails when the text of the token occurs in what the
    handler writes anyway: with the token "error", the body of the 400
    response contains the token. *)
Lemma token_text_in_error_body :
  exists response,
    netlify.handler sample_rt (env_with_token "error")
                    (post_event (JObj []))
    = Ret response
    /\ netlify.statusCode response = 400
    /\ contains (netlify.body response) (lit "error") = true.
Proof. eexists. repeat split; reflexivity. Qed.

(** C1 (amended).  For every inbound request and every upstream outcome
    (transport failure, non-success status, or any response body), running
    a handler with two different configured token values on the same
    inbound request and the same upstream outcome yields the same
    response, error bodies included: the response does not depend on the
    token.  (In the serverless variant both tokens must be set and not
    empty; an unset token is answered 500.)  The token is sent in the
    [token] field of the upstream payload. *)
Theorem token_noninterference (rt : Runtime) :
  (forall token1 token2 payload o,
      answer o (main.query rt token1 payload)
      = answer o (main.query rt token2 payload))
  /\ (forall token1 token2 data o,
         answer o (app.search rt token1 data)
         = answer o (app.search rt token2 data))
  /\ (forall token1 token2 origins ev o,
         configured token1 = true -> configured token2 = true ->
         answer o (netlify.handler rt (netlify.mkEnviron token1 origins) ev)
         = answer o (netlify.handler rt (netlify.mkEnviron token2 origins) ev))
  /\ (forall env ev u p t k,
         netlify.handler rt env ev = Post u p t k ->
         get_field p "token" = option_map JStr (netlify.LEAK_API_TOKEN env)).
Proof.
  split; [|split; [|split]].
  - intros token1 token2 payload o. reflexivity.
  - intros token1 token2 data o. unfold app.search.
    repeat match goal with
           | |- context [io_try ?r _] => destruct r; cbn [io_try]
           | |- context [if ?b then _ else _] => destruct b
           end; reflexivity.
  - intros [[|c1 token1]|] [[|c2 token2]|] origins ev o H1 H2;
      try discriminate.
    unfold netlify.handler, netlify.handler_try.
    cbn [netlify.LEAK_API_TOKEN].
    repeat match goal with
           | |- context [io_try ?r _] => destruct r; cbn [io_try]
           | |- context [if ?b then _ else _] => destruct b
           | |- context [match netlify.body_loads ?e with _ => _ end] =>
               destruct (netlify.body_loads e)
           end; reflexivity.
  - intros env ev u p t k H.
    now apply netlify_handler_post in H.
Qed.

Lemma token_noninterference_witness :
  (configured (Some (lit "first")) = true
   /\ configured (Some (lit "second")) = true)
  /\ answer (reply 500 (lit "down") not_json)
            (netlify.handler sample_rt
               (netlify.mkEnviron (Some (lit "first")) None)
               (post_event alice_request))
     = answer (reply 500 (lit "down") not_json)
              (netlify.handler sample_rt
                 (netlify.mkEnviron (Some (lit "second")) None)
                 (post_event alice_request)).
Proof.
  split; [split; reflexivity|].
  exact (proj1 (proj2 (proj2 (token_noninterference sample_rt)))
               (Some (lit "first")) (Some (lit "second")) None
               (post_event alice_request)
               (reply 500 (lit "down") not_json) eq_refl eq_refl).
Defined.

(* ================================================================== *)
(** ** Whitespace and separators *)

Lemma lstrip_app (u v : pystr) :
  lstrip (u ++ v) = if forallb isspace u then lstrip v else lstrip u ++ v.
Proof.
  induction u as [|c u IH]; simpl; [reflexivity|].
  destruct (isspace c); simpl; [exact IH | reflexivity].
Qed.

Lemma forallb_rev {A} (f : A -> bool) (l : list A) :
  forallb f (rev l) = forallb f l.
Proof.
  induction l as [|a l IH]; simpl; [reflexivity|].
  rewrite forallb_app, IH. simpl. rewrite andb_true_r. apply andb_comm.
Qed.

Lemma rstrip_app (a b : pystr) :
  rstrip (a ++ b) = if forallb isspace b then rstrip a else a ++ rstrip b.
Proof.
  unfold rstrip. rewrite rev_app_distr, lstrip_app, forallb_rev.
  destruct (forallb isspace b); [reflexivity|].
  now rewrite rev_app_distr, rev_involutive.
Qed.

Lemma lstrip_In (c : char) (s : pystr) : In c (lstrip s) -> In c s.
Proof.
  induction s as [|x s IH]; simpl; [easy|].
  destruct (isspace x); simpl; auto.
Qed.

Lemma rstrip_In (c : char) (s : pystr) : In c (rstrip s) -> In c s.
Proof.
  unfold rstrip. intros H. apply in_rev in H. apply lstrip_In in H.
  now apply in_rev.
Qed.

Lemma strip_In (c : char) (s : pystr) : In c (strip s) -> In c s.
Proof. intros H. now apply lstrip_In, rstrip_In. Qed.

Lemma lstrip_idem (s : pystr) : lstrip (lstrip s) = lstrip s.
Proof.
  induction s as [|c s IH]; simpl; [reflexivity|].
  destruct (isspace c) eqn:E; [exact IH|]. simpl. now rewrite E.
Qed.

Lemma rstrip_idem (s : pystr) : rstrip (rstrip s) = rstrip s.
Proof. unfold rstrip. now rewrite rev_involutive, lstrip_idem. Qed.

Lemma lstrip_length (s : pystr) : (List.length (lstrip s) <= List.length s)%nat.
Proof.
  induction s as [|c s IH]; simpl; [lia|].
  destruct (isspace c); simpl; lia.
Qed.

Lemma lstrip_fixed_head (c : char) (s : pystr) :
  lstrip (c :: s) = c :: s -> isspace c = false.
Proof.
  simpl. destruct (isspace c); [|reflexivity]. intros H.
  pose proof (lstrip_length s) as Hl. rewrite H in Hl. simpl in Hl. lia.
Qed.

Lemma lstrip_head (c : char) (s : pystr) :
  isspace c = false -> lstrip (c :: s) = c :: s.
Proof. intros H. simpl. now rewrite H. Qed.

(** The left end of a stripped string is not whitespace. *)
Lemma lstrip_cases (s : pystr) :
  lstrip s = [] \/ exists c t, lstrip s = c :: t /\ isspace c = false.
Proof.
  induction s as [|c s IH]; simpl; [now left|].
  destruct (isspace c) eqn:E; [exact IH|]. right. now exists c, s.
Qed.

(** Stripping the right end keeps a left end that is already stripped. *)
Lemma lstrip_rstrip (s : pystr) :
  lstrip s = s -> lstrip (rstrip s) = rstrip s.
Proof.
  destruct s as [|c s]; [reflexivity|]. intros H.
  apply lstrip_fixed_head in H.
  change (c :: s) with ([c] ++ s). rewrite rstrip_app.
  destruct (forallb isspace s).
  - unfold rstrip. simpl. rewrite H. simpl. now rewrite H.
  - simpl. now rewrite H.
Qed.

Lemma strip_stripped (s : pystr) : stripped (strip s).
Proof.
  unfold stripped, strip. split.
  - apply lstrip_rstrip, lstrip_idem.
  - apply rstrip_idem.
Qed.

Lemma strip_idem (s : pystr) : strip (strip s) = strip s.
Proof.
  destruct (strip_stripped s) as [Hl Hr]. unfold strip at 1.
  now rewrite Hl.
Qed.

Lemma strip_of_stripped (s : pystr) : stripped s -> strip s = s.
Proof. intros [Hl Hr]. unfold strip. now rewrite Hl. Qed.

(** Leading whitespace does not change what [strip] gives. *)
Lemma strip_app_space (w s : pystr) :
  forallb isspace w = true -> strip (w ++ s) = strip s.
Proof. intros H. unfold strip. now rewrite lstrip_app, H. Qed.

Lemma lstrip_split (s : pystr) :
  exists w, forallb isspace w = true /\ s = w ++ lstrip s.
Proof.
  induction s as [|c s (w & Hw & IH)]; [now exists []|].
  simpl. destruct (isspace c) eqn:E.
  - exists (c :: w). simpl. rewrite E, Hw. split; [reflexivity|].
    now rewrite <- IH.
  - now exists [].
Qed.

Lemma before_sep_not_In (sep : char) (s : pystr) :
  ~ In sep (before_sep sep s).
Proof.
  induction s as [|c s IH]; simpl; [easy|].
  unfold char_eqb. destruct (N.eqb_spec c sep) as [->|Hne]; [easy|].
  simpl. intros [->|H]; [congruence | now apply IH].
Qed.

Lemma before_sep_absent (sep : char) (s : pystr) :
  ~ In sep s -> before_sep sep s = s.
Proof.
  induction s as [|c s IH]; simpl; [reflexivity|]. intros H.
  unfold char_eqb. destruct (N.eqb_spec c sep) as [->|Hne].
  - exfalso. apply H. now left.
  - f_equal. apply IH. intros Hin. apply H. now right.
Qed.

Lemma before_sep_app (sep : char) (a b : pystr) :
  ~ In sep a -> before_sep sep (a ++ b) = a ++ before_sep sep b.
Proof.
  induction a as [|c a IH]; simpl; [reflexivity|]. intros H.
  unfold char_eqb. destruct (N.eqb_spec c sep) as [->|Hne].
  - exfalso. apply H. now left.
  - f_equal. apply IH. intros Hin. apply H. now right.
Qed.

Lemma before_sep_split (sep : char) (s : pystr) :
  ~ In sep s \/ exists b, s = before_sep sep s ++ sep :: b.
Proof.
  induction s as [|c s IH]; simpl; [now left|].
  unfold char_eqb. destruct (N.eqb_spec c sep) as [->|Hne].
  - right. now exists s.
  - destruct IH as [IH|(b & IH)].
    + left. intros [->|H]; [congruence | contradiction].
    + right. exists b. simpl. now rewrite <- IH.
Qed.

Lemma space_not_In (sep : char) (w : pystr) :
  isspace sep = false -> forallb isspace w = true -> ~ In sep w.
Proof.
  intros Hs Hw Hin. rewrite forallb_forall in Hw.
  apply Hw in Hin. congruence.
Qed.

(** The piece before a separator that is not whitespace is the same,
    up to [strip], whether the string is stripped first or not. *)
Lemma strip_before_sep_strip (sep : char) (s : pystr) :
  isspace sep = false ->
  strip (before_sep sep (strip s)) = strip (before_sep sep s).
Proof.
  intros Hsep.
  destruct (lstrip_split s) as (w & Hw & Hs).
  rewrite Hs at 2.
  rewrite before_sep_app by (now apply space_not_In).
  rewrite strip_app_space by assumption.
  unfold strip at 2. set (y := lstrip s).
  assert (Hy : lstrip y = y) by apply lstrip_idem.
  destruct (before_sep_split sep y) as [Habs|(b & Hb)].
  - rewrite (before_sep_absent sep y Habs).
    rewrite before_sep_absent
      by (intros Hin; apply Habs; now apply rstrip_In).
    unfold strip. rewrite (lstrip_rstrip y Hy), rstrip_idem. now rewrite Hy.
  - rewrite Hb at 1. rewrite rstrip_app.
    assert (Hns : forallb isspace (sep :: b) = false)
      by (simpl; now rewrite Hsep).
    rewrite Hns. change (sep :: b) with ([sep] ++ b). rewrite rstrip_app.
    rewrite before_sep_app by apply before_sep_not_In.
    destruct (forallb isspace b).
    + unfold rstrip at 1. simpl. rewrite Hsep. simpl.
      unfold char_eqb. rewrite N.eqb_refl. now rewrite app_nil_r.
    + simpl. unfold char_eqb. rewrite N.eqb_refl. now rewrite app_nil_r.
Qed.

Lemma lstrip_keeps (c : char) (s : pystr) :
  isspace c = false -> In c s -> In c (lstrip s).
Proof.
  intros Hc. induction s as [|x s IH]; simpl; [easy|].
  destruct (isspace x) eqn:E; [|easy].
  intros [->|H]; [congruence | now apply IH].
Qed.

Lemma strip_keeps (c : char) (s : pystr) :
  isspace c = false -> In c s -> In c (strip s).
Proof.
  intros Hc H. unfold strip, rstrip. rewrite <- in_rev.
  apply lstrip_keeps; [assumption|]. rewrite <- in_rev.
  now apply lstrip_keeps.
Qed.

Lemma strip_all_space (s : pystr) :
  forallb isspace s = true -> strip s = [].
Proof.
  intros H. unfold strip.
  pose proof (lstrip_app s []) as Hl. rewrite H, app_nil_r in Hl.
  now rewrite Hl.
Qed.

(** The pieces of a split hold the characters of the string other than the
    separator, and only them. *)
Lemma split_sep_from_In (sep c : char) (s : pystr) :
  forall cur piece,
    In piece (split_sep_from sep cur s) -> In c piece ->
    In c cur \/ (In c s /\ c <> sep).
Proof.
  induction s as [|x s IH]; intros cur piece Hp Hc; simpl in Hp.
  - destruct Hp as [<-|[]]. left. now apply in_rev.
  - unfold char_eqb in Hp. destruct (N.eqb_spec x sep) as [->|Hne].
    + destruct Hp as [<-|Hp]; [left; now apply in_rev|].
      destruct (IH [] piece Hp Hc) as [[]|[H1 H2]]. right. split; [now right|assumption].
    + destruct (IH (x :: cur) piece Hp Hc) as [[<-|H]|[H1 H2]].
      * right. split; [now left|assumption].
      * now left.
      * right. split; [now right|assumption].
Qed.

Lemma split_sep_from_covers (sep c : char) (s : pystr) :
  forall cur,
    (In c cur \/ In c s) -> c <> sep ->
    exists piece, In piece (split_sep_from sep cur s) /\ In c piece.
Proof.
  induction s as [|x s IH]; intros cur Hc Hne; simpl.
  - destruct Hc as [Hc|[]]. exists (rev cur). split; [now left|].
    now apply in_rev in Hc.
  - unfold char_eqb. destruct (N.eqb_spec x sep) as [->|Hx].
    + destruct Hc as [Hc|[Hc|Hc]]; [| congruence |].
      * exists (rev cur). split; [now left | now apply in_rev in Hc].
      * destruct (IH [] (or_intror Hc) Hne) as (piece & Hp & Hin).
        exists piece. split; [now right | assumption].
    + apply IH; [|assumption].
      destruct Hc as [Hc|[->|Hc]]; [left; now right | left; now left | now right].
Qed.

(* ================================================================== *)
(** ** The origin list of [main.py] *)

(** X1.  Every origin that [main.py] hands to the CORS middleware is not
    empty, has no comma and no leading or trailing whitespace; and the
    middleware is installed exactly when [ALLOWED_ORIGINS] has a character
    that is neither whitespace nor a comma (so never when it is unset or
    empty). *)
Theorem main_origins_clean (env_origins : option pystr) :
  (forall o,
      In o (main.origins env_origins) ->
      o <> [] /\ ~ In 44%N o /\ stripped o)
  /\ (main.cors_installed env_origins = true <->
      exists c,
        In c (main.ALLOWED_ORIGINS env_origins)
        /\ isspace c = false /\ c <> 44%N)
  /\ main.cors_installed None = false
  /\ main.cors_installed (Some []) = false.
Proof.
  split; [|split; [|split; reflexivity]].
  - intros o Ho. unfold main.origins in Ho.
    apply in_map_iff in Ho as (piece & <- & Hp).
    apply filter_In in Hp as [Hp Hne].
    split; [now destruct (strip piece)|].
    split; [|apply strip_stripped].
    intros Hin. apply strip_In in Hin.
    destruct (split_sep_from_In 44%N 44%N _ [] piece Hp Hin)
      as [[]|[_ H]]. congruence.
  - unfold main.cors_installed, main.origins. split.
    + intros H.
      destruct (filter _ _) as [|piece rest] eqn:E; [discriminate|].
      assert (Hp : In piece (piece :: rest)) by now left.
      rewrite <- E in Hp. apply filter_In in Hp as [Hp Hne].
      destruct (strip piece) as [|c t] eqn:Es; [discriminate|].
      assert (Hc : In c (strip piece)) by (rewrite Es; now left).
      destruct (strip_stripped piece) as [Hl _]. rewrite Es in Hl.
      apply lstrip_fixed_head in Hl. apply strip_In in Hc.
      destruct (split_sep_from_In 44%N c _ [] piece Hp Hc)
        as [[]|[H1 H2]]. now exists c.
    + intros (c & Hc & Hs & Hne).
      destruct (split_sep_from_covers 44%N c _ [] (or_intror Hc) Hne)
        as (piece & Hp & Hin).
      assert (Hf : In piece
                     (filter (fun o => match strip o with
                                       | [] => false
                                       | _ => true
                                       end)
                             (split_sep 44%N (main.ALLOWED_ORIGINS env_origins)))).
      { apply filter_In. split; [exact Hp|].
        pose proof (strip_keeps c piece Hs Hin) as Hk.
        now destruct (strip piece). }
      destruct (filter _ _); [destruct Hf | reflexivity].
Qed.

(* ================================================================== *)
(** ** Every path of the serverless handler *)

Section NetlifyPaths.
Variable rt : Runtime.

(** The three ways [handler] goes: the preflight answer, an error answer
    without upstream call, or the upstream call. *)
Lemma netlify_handler_cases env ev :
  (is_preflight ev = true
   /\ netlify.handler rt env ev
      = Ret (netlify.make_response rt 200 (JObj [(lit "ok", JBool true)])
                                   None))
  \/ (is_preflight ev = false
      /\ exists status obj origin,
          netlify.handler rt env ev
          = Ret (netlify.make_response rt status (JObj obj) origin)
          /\ dict_has obj (lit "error") = true
          /\ (status = 400 \/ status = 500)
          /\ (origin = netlify.allowed_origin env
              \/ origin = netlify.catch_all_origin env))
  \/ (is_preflight ev = false
      /\ exists p,
          netlify.handler rt env ev
          = Post API_URL p (Some 30)
              (fun o =>
                 Ret (netlify.catch_all rt env
                        (netlify.after_post rt (netlify.allowed_origin env)
                                            o)))).
Proof.
  unfold netlify.handler, netlify.handler_try. fold (is_preflight ev).
  destruct (is_preflight ev); [left; now split|].
  right.
  destruct (netlify.LEAK_API_TOKEN env) as [[|c token]|];
    try (left; split; [reflexivity|];
         do 3 eexists; split; [reflexivity|]; repeat split; auto).
  destruct (netlify.body_loads ev) as [payload|e];
    [|left; split; [reflexivity|];
      do 3 eexists; split; [reflexivity|]; repeat split; auto].
  repeat match goal with
         | |- context [io_try ?r _] =>
             destruct r; cbn [io_try];
             [|left; split; [reflexivity|];
               do 3 eexists; split; [reflexivity|]; repeat split; auto]
         | |- context [if negb ?b then _ else _] =>
             destruct b; cbn [negb];
             [|left; split; [reflexivity|];
               do 3 eexists; split; [reflexivity|]; repeat split; auto]
         end.
  right. split; [reflexivity|]. eexists. reflexivity.
Qed.

(** What the handler answers once the upstream call is over. *)
Lemma after_post_cases env origin o :
  exists status obj origin',
    netlify.catch_all rt env (netlify.after_post rt origin o)
    = netlify.make_response rt status (JObj obj) origin'
    /\ (status = 200
        \/ ((status = 500 \/ status = 502)
            /\ dict_has obj (lit "error") = true))
    /\ (origin' = origin \/ origin' = netlify.catch_all_origin env).
Proof.
  unfold netlify.after_post.
  destruct o as [e|r].
  - destruct (is_RequestException e);
      do 3 eexists; (split; [reflexivity|]); split; auto.
  - destruct (Response.ok r); cbn [negb].
    + destruct (Response.json_body r) as [resp_json|e].
      * destruct (netlify.summarize rt resp_json) as [summary|e];
          do 3 eexists; (split; [reflexivity|]); split; auto.
      * do 3 eexists. (split; [reflexivity|]); split; auto.
    + do 3 eexists. (split; [reflexivity|]); split; auto.
Qed.

(** The CORS origin of a response. *)
Lemma make_response_origin status obj origin :
  header_get (netlify.headers (netlify.make_response rt status obj origin))
             (lit "Access-Control-Allow-Origin")
  = Some (origin_or_star (match origin with Some o => o | None => [] end)).
Proof. destruct origin as [[|c o]|]; reflexivity. Qed.

Lemma comma_not_space : isspace 44%N = false.
Proof. reflexivity. Qed.

Lemma first_origin_of_blank env :
  strip (netlify.getenv_origins env) = [] -> first_origin env = [].
Proof.
  intros H. unfold first_origin.
  rewrite <- (strip_before_sep_strip 44%N _ comma_not_space), H.
  reflexivity.
Qed.

Lemma allowed_origin_header env :
  origin_or_star (match netlify.allowed_origin env with
                  | Some o => o
                  | None => []
                  end)
  = origin_or_star (first_origin env).
Proof.
  unfold netlify.allowed_origin.
  destruct (strip (netlify.getenv_origins env)) as [|c s] eqn:E.
  - now rewrite (first_origin_of_blank env E).
  - rewrite <- E. unfold first_origin.
    now rewrite (strip_before_sep_strip 44%N _ comma_not_space).
Qed.

Lemma catch_all_origin_header env :
  origin_or_star (match netlify.catch_all_origin env with
                  | Some o => o
                  | None => []
                  end)
  = origin_or_star (first_origin env).
Proof.
  unfold netlify.catch_all_origin.
  destruct (strip (netlify.getenv_origins env)) as [|c s] eqn:E.
  - now rewrite (first_origin_of_blank env E).
  - reflexivity.
Qed.

End NetlifyPaths.

Lemma answer_post {A} (o : upstream) u p t (k : upstream -> io A) :
  answer o (Post u p t k) = answer o (k o).
Proof. unfold answer. simpl. now destruct (run (fun _ => o) (k o)). Qed.

Lemma posts_at_most_once_run {A} (net : json -> upstream) (p : io A) :
  posts_at_most_once p -> (List.length (fst (run net p)) <= 1)%nat.
Proof.
  destruct p as [a|u payload t k]; simpl; [lia|].
  intros [_ H]. destruct (H (net payload)) as (a & ->). simpl. lia.
Qed.

(* ================================================================== *)
(** ** What every response of the serverless handler looks like *)

(** X2.  Whatever the environment, the event and the upstream outcome, the
    serverless handler answers with status 200, 400, 500 or 502, a body
    that is the serialisation of a JSON object, and the JSON content type;
    and whenever the status is not 200 the object has an [error] field. *)
Theorem netlify_response_shape (rt : Runtime) env ev o :
  exists status obj origin,
    answer o (netlify.handler rt env ev)
    = netlify.make_response rt status (JObj obj) origin
    /\ In status [200; 400; 500; 502]
    /\ (status <> 200 -> dict_has obj (lit "error") = true)
    /\ netlify.body (answer o (netlify.handler rt env ev))
       = json_dumps rt (JObj obj)
    /\ header_get (netlify.headers (answer o (netlify.handler rt env ev)))
                  (lit "Content-Type")
       = Some (lit "application/json").
Proof.
  destruct (netlify_handler_cases rt env ev)
    as [[_ H]|[(_ & status & obj & origin & H & Herr & Hst & _)
              |(_ & p & H)]]; rewrite H.
  - do 3 eexists. split; [reflexivity|]. split; [simpl; auto|].
    split; [congruence|]. split; reflexivity.
  - exists status, obj, origin. split; [reflexivity|].
    split; [destruct Hst as [->| ->]; simpl; auto|].
    split; [auto|]. split; reflexivity.
  - rewrite answer_post.
    destruct (after_post_cases rt env (netlify.allowed_origin env) o)
      as (status & obj & origin & Hr & Hst & _).
    exists status, obj, origin. unfold answer. cbn [run snd]. rewrite Hr.
    split; [reflexivity|].
    split; [destruct Hst as [->|[[->| ->] _]]; simpl; auto|].
    split; [|split; reflexivity].
    intros Hne. destruct Hst as [->|[_ Herr]]; [congruence | exact Herr].
Qed.

(** X3.  The [Access-Control-Allow-Origin] header of every response of the
    serverless handler is "*" for a preflight, and otherwise the first
    entry of [ALLOWED_ORIGINS], stripped, or "*" when that entry is empty
    or the variable unset: the catch-all clause and the other clauses
    agree on it.  The value is never empty, has no comma and no leading or
    trailing whitespace. *)
Theorem cors_origin_header (rt : Runtime) env ev o :
  let origin :=
    if is_preflight ev then lit "*"
    else origin_or_star (first_origin env) in
  header_get (netlify.headers (answer o (netlify.handler rt env ev)))
             (lit "Access-Control-Allow-Origin")
  = Some origin
  /\ origin <> [] /\ ~ In 44%N origin /\ stripped origin.
Proof.
  intros origin. split.
  - subst origin.
    destruct (netlify_handler_cases rt env ev)
      as [[Hp H]|[(Hp & status & obj & origin & H & _ & _ & Ho)
                 |(Hp & p & H)]]; rewrite H, Hp.
    + reflexivity.
    + unfold answer. cbn [run snd]. rewrite make_response_origin.
      destruct Ho as [->| ->];
        [now rewrite allowed_origin_header
        | now rewrite catch_all_origin_header].
    + rewrite answer_post.
      destruct (after_post_cases rt env (netlify.allowed_origin env) o)
        as (status & obj & origin & Hr & _ & Ho).
      unfold answer. cbn [run snd]. rewrite Hr, make_response_origin.
      destruct Ho as [->| ->];
        [now rewrite allowed_origin_header
        | now rewrite catch_all_origin_header].
  - subst origin. destruct (is_preflight ev).
    + split; [discriminate|]. split; [|split; reflexivity].
      intros [H|[]]. discriminate.
    + unfold origin_or_star.
      destruct (first_origin env) as [|c s] eqn:E.
      * split; [discriminate|]. split; [|split; reflexivity].
        intros [H|[]]. discriminate.
      * rewrite <- E. split; [rewrite E; discriminate|]. split.
        -- unfold first_origin. intros Hin. apply strip_In in Hin.
           now apply before_sep_not_In in Hin.
        -- apply strip_stripped.
Qed.

(* ================================================================== *)
(** ** One upstream call at most *)

(** X4.  Each of the three handlers posts to the upstream URL at most once
    per request and returns after the reply, whatever the reply is: no
    retry, no second call. *)
Theorem single_upstream_call (rt : Runtime) :
  (forall env ev, posts_at_most_once (netlify.handler rt env ev))
  /\ (forall token payload, posts_at_most_once (main.query rt token payload))
  /\ (forall env data, posts_at_most_once (app.search rt env data))
  /\ (forall env ev net,
         (List.length (fst (run net (netlify.handler rt env ev))) <= 1)%nat)
  /\ (forall token payload net,
         List.length (fst (run net (main.query rt token payload))) = 1%nat)
  /\ (forall env data net,
         (List.length (fst (run net (app.search rt env data))) <= 1)%nat).
Proof.
  assert (Hn : forall env ev, posts_at_most_once (netlify.handler rt env ev)).
  { intros env ev.
    destruct (netlify_handler_cases rt env ev)
      as [[_ H]|[(_ & status & obj & origin & H & _)|(_ & p & H)]];
      rewrite H; simpl; auto.
    split; [reflexivity|]. intros o. eexists. reflexivity. }
  assert (Hm : forall token payload,
             posts_at_most_once (main.query rt token payload)).
  { intros token payload. rewrite main_query_post. simpl.
    split; [reflexivity|]. intros o. eexists. reflexivity. }
  assert (Ha : forall env data, posts_at_most_once (app.search rt env data)).
  { intros env data. unfold app.search.
    repeat match goal with
           | |- context [io_try ?r _] => destruct r; cbn [io_try]
           | |- context [if ?b then _ else _] => destruct b
           end; simpl; auto.
    split; [reflexivity|]. intros o. eexists. reflexivity. }
  split; [exact Hn|]. split; [exact Hm|]. split; [exact Ha|].
  split; [|split].
  - intros env ev net. apply posts_at_most_once_run, Hn.
  - intros token payload net. now rewrite main_query_post.
  - intros env data net. apply posts_at_most_once_run, Ha.
Qed.

(* ================================================================== *)
(** ** When the summarizer fails *)

Section SummarizeSafety.
Variable rt : Runtime.

Lemma dbs_loop_ok_iff (dbs : dict) :
  forall parts,
    (exists reached, dbs_loop rt dbs parts = Ok reached)
    <-> forallb db_safe dbs = true.
Proof.
  induction dbs as [|[dbname dbinfo] dbs IH]; intros parts.
  - simpl. split; [reflexivity | intros _; now eexists].
  - cbn [forallb]. unfold db_safe at 1. cbn [snd dbs_loop].
    destruct dbinfo as [| | | | | |info];
      try (cbn [py_get bind]; split;
           [intros [reached H]; discriminate H | discriminate]).
    cbn [py_get bind].
    destruct (truthy (dict_get info (lit "InfoLeak") JNull)); cbn [bind];
      destruct (py_or (dict_get info (lit "Data") JNull) (JArr []))
        as [| | | |s|l|d];
      cbn [py_len py_first3 bind andb];
      try (split; [intros [reached H]; discriminate H | discriminate]);
      apply IH.
Qed.

(** The loop only appends to the lines it starts from. *)
Lemma dbs_loop_extends (dbs : dict) :
  forall parts reached,
    dbs_loop rt dbs parts = Ok reached ->
    exists added, reached = parts ++ added.
Proof.
  induction dbs as [|[dbname dbinfo] dbs IH]; intros parts reached H.
  - injection H as <-. exists []. now rewrite app_nil_r.
  - cbn [dbs_loop] in H.
    destruct (py_get dbinfo (lit "InfoLeak") JNull) as [a|e];
      [|discriminate]; cbn [bind] in H.
    destruct (if truthy a then Ok a else py_get dbinfo (lit "info") JNull)
      as [ab|e]; [|discriminate]; cbn [bind] in H.
    destruct (py_get dbinfo (lit "Data") JNull) as [d|e];
      [|discriminate]; cbn [bind] in H.
    destruct (py_len (py_or d (JArr []))) as [n|e];
      [|discriminate]; cbn [bind] in H.
    destruct (py_first3 (py_or d (JArr []))) as [shown|e];
      [|discriminate]; cbn [bind] in H.
    apply IH in H as (added & ->). rewrite entries_loop_spec.
    unfold append.
    destruct (truthy (py_or ab (JStr []))), (3 <? n);
      repeat rewrite <- app_assoc; eexists; reflexivity.
Qed.

(** The loop starts the lines of a non-empty listing with the header of
    its first database. *)
Lemma dbs_loop_first (dbname : pystr) (dbinfo : json) (dbs : dict)
      (reached : list pystr) :
  dbs_loop rt ((dbname, dbinfo) :: dbs) [] = Ok reached ->
  exists rest, reached = header_line dbname :: rest.
Proof.
  intros H. cbn [dbs_loop] in H.
  destruct (py_get dbinfo (lit "InfoLeak") JNull) as [a|e];
    [|discriminate]; cbn [bind] in H.
  destruct (if truthy a then Ok a else py_get dbinfo (lit "info") JNull)
    as [ab|e]; [|discriminate]; cbn [bind] in H.
  destruct (py_get dbinfo (lit "Data") JNull) as [d|e];
    [|discriminate]; cbn [bind] in H.
  destruct (py_len (py_or d (JArr []))) as [n|e];
    [|discriminate]; cbn [bind] in H.
  destruct (py_first3 (py_or d (JArr []))) as [shown|e];
    [|discriminate]; cbn [bind] in H.
  apply dbs_loop_extends in H as (added & ->). rewrite entries_loop_spec.
  unfold append, header_line.
  destruct (truthy (py_or ab (JStr []))), (3 <? n);
    cbn [app]; eexists; reflexivity.
Qed.

End SummarizeSafety.

(** X5.  The summarizers fail on exactly one kind of value: an object
    without "Error code" whose [List] is an object holding a database that
    is not an object, or whose [Data] is a number other than zero, [true]
    or a non-empty object.  On every other value (not an object, an error
    object, no [List], databases whose [Data] is missing, falsy, a list or
    a string) they return a text. *)
Theorem summarize_fails_only_on_bad_database (rt : Runtime) (v : json) :
  ((exists text, main.summarize rt v = Ok text) <-> summarize_safe v = true)
  /\ ((exists text, netlify.summarize rt v = Ok text)
      <-> summarize_safe v = true).
Proof.
  assert (H : forall api,
             (exists text, summarize rt api v = Ok text)
             <-> summarize_safe v = true).
  { intros api. unfold summarize, summarize_safe.
    destruct v as [| | | | | |d];
      try (split; [reflexivity | intros _; now eexists]).
    destruct (dict_has d (lit "Error code")); cbn [orb];
      [split; [reflexivity | intros _; now eexists]|].
    destruct (dict_find d (lit "List")) as [[| | | | | |dbs]|];
      try (split; [reflexivity | intros _; now eexists]).
    rewrite <- (dbs_loop_ok_iff rt dbs []).
    destruct (dbs_loop rt dbs []) as [parts|e]; cbn [bind]; split.
    - intros _. now eexists.
    - intros _. now eexists.
    - intros [text Ht]. discriminate Ht.
    - intros [reached Hr]. discriminate Hr. }
  split; apply H.
Qed.

(* ================================================================== *)
(** ** The text of a database listing *)

Lemma startswith_app (a b : pystr) : startswith (a ++ b) a = true.
Proof.
  induction a as [|c a IH]; simpl; [now destruct b|].
  unfold char_eqb. now rewrite N.eqb_refl.
Qed.

Lemma header_line_stripped (dbname : pystr) :
  lstrip (header_line dbname) = header_line dbname
  /\ forall rest,
      rstrip (header_line dbname ++ rest)
      = header_line dbname ++ (if forallb isspace rest then []
                               else rstrip rest).
Proof.
  split; [reflexivity|]. intros rest. rewrite rstrip_app.
  destruct (forallb isspace rest); [|reflexivity].
  rewrite app_nil_r. unfold header_line.
  rewrite app_assoc, rstrip_app. cbn [forallb lit].
  replace (forallb isspace (lit " ==")) with false by reflexivity.
  reflexivity.
Qed.

(** X6.  When the [List] branch of the summarizers returns a text, the
    text has no leading and no trailing whitespace; it is empty for an
    empty [List], and for a non-empty [List] it starts with the header
    "== <name> ==" of the first database. *)
Theorem list_summary_text (rt : Runtime) (d dbs : dict) (text : pystr) :
  dict_has d (lit "Error code") = false ->
  dict_find d (lit "List") = Some (JObj dbs) ->
  main.summarize rt (JObj d) = Ok text ->
  netlify.summarize rt (JObj d) = Ok text
  /\ stripped text
  /\ (dbs = [] -> text = [])
  /\ (forall dbname dbinfo rest,
         dbs = (dbname, dbinfo) :: rest ->
         startswith text (header_line dbname) = true).
Proof.
  intros He Hl H. unfold main.summarize in H. unfold netlify.summarize.
  rewrite (summarize_list rt _ d dbs He Hl) in H.
  rewrite (summarize_list rt _ d dbs He Hl).
  destruct (dbs_loop rt dbs []) as [parts|e] eqn:E; [|discriminate].
  cbn [bind] in *. injection H as <-.
  split; [reflexivity|]. split; [apply strip_stripped|]. split.
  - intros ->. injection E as <-. reflexivity.
  - intros dbname dbinfo rest ->.
    apply dbs_loop_first in E as (more & ->).
    assert (Hj : exists tail,
               join newline (header_line dbname :: more)
               = header_line dbname ++ tail)
      by (destruct more as [|m more]; cbn [join];
          [exists []; now rewrite app_nil_r | eexists; reflexivity]).
    destruct Hj as (tail & ->).
    destruct (header_line_stripped dbname) as [Hl' Hr'].
    unfold strip.
    assert (Hls : lstrip (header_line dbname ++ tail)
                  = header_line dbname ++ tail) by reflexivity.
    rewrite Hls, Hr'. apply startswith_app.
Qed.

Lemma list_summary_text_witness :
  dict_has [(lit "List", JObj three_dbs)] (lit "Error code") = false
  /\ stripped (strip (join newline
                        (flat_map (db_block sample_rt) three_dbs)))
  /\ startswith (strip (join newline
                          (flat_map (db_block sample_rt) three_dbs)))
                (header_line (lit "A")) = true.
Proof.
  split; [reflexivity|].
  pose proof (list_summary_text sample_rt
                [(lit "List", JObj three_dbs)] three_dbs _
                eq_refl eq_refl eq_refl) as (_ & Hs & _ & Hh).
  split; [exact Hs|].
  exact (Hh (lit "A") (JObj [(lit "info", JStr (lit "x"))]) _ eq_refl).
Defined.

(* ================================================================== *)
(** ** Field values and string data *)

Lemma clip200_spec (s : pystr) :
  len (clip200 s) <= 201
  /\ (len s <= 200 -> clip200 s = s)
  /\ (200 < len s -> clip200 s = firstn 200 s ++ ellipsis).
Proof.
  unfold clip200. destruct (Z.ltb_spec 200 (len s)) as [H|H].
  - split; [|split; [lia | reflexivity]].
    rewrite len_app, len_firstn. change (len ellipsis) with 1.
    change (Z.of_nat 200) with 200. lia.
  - split; [lia|]. split; [reflexivity | lia].
Qed.

(** X7.  Every line the summarizers write for a field of an entry is
    "  <key>: <value>", where the value is the string form of the field
    when it has at most 200 characters and otherwise its first 200
    characters followed by the ellipsis: the value never exceeds 201
    characters, and the line never exceeds the key by more than 205. *)
Theorem field_lines_clipped (rt : Runtime) (fields : dict)
        (parts : list pystr) (line : pystr) :
  In line (fields_loop rt fields parts) ->
  In line parts
  \/ exists k v value,
      In (k, v) fields
      /\ line = lit "  " ++ k ++ lit ": " ++ value
      /\ len value <= 201
      /\ len line <= len k + 205
      /\ (len (py_str rt v) <= 200 -> value = py_str rt v)
      /\ (200 < len (py_str rt v) ->
          value = firstn 200 (py_str rt v) ++ ellipsis).
Proof.
  rewrite fields_loop_spec. intros H. apply in_app_or in H as [H|H];
    [now left|right].
  apply in_map_iff in H as ([k v] & <- & Hin).
  destruct (clip200_spec (py_str rt v)) as (Hlen & Hshort & Hlong).
  exists k, v, (clip200 (py_str rt v)).
  split; [exact Hin|]. split; [reflexivity|]. split; [exact Hlen|].
  split; [|split; assumption].
  unfold field_line. cbn [fst snd]. rewrite !len_app.
  change (len (lit "  ")) with 2. change (len (lit ": ")) with 2. lia.
Qed.

Lemma field_lines_clipped_witness :
  In (lit "  a: 1") (fields_loop sample_rt [(lit "a", JStr (lit "1"))] [])
  /\ (In (lit "  a: 1") []
      \/ exists k v value,
          In (k, v) [(lit "a", JStr (lit "1"))]
          /\ lit "  a: 1" = lit "  " ++ k ++ lit ": " ++ value
          /\ len value <= 201
          /\ len (lit "  a: 1") <= len k + 205
          /\ (len (py_str sample_rt v) <= 200 -> value = py_str sample_rt v)
          /\ (200 < len (py_str sample_rt v) ->
              value = firstn 200 (py_str sample_rt v) ++ ellipsis)).
Proof.
  split; [now left|].
  exact (field_lines_clipped sample_rt [(lit "a", JStr (lit "1"))] []
           (lit "  a: 1") (or_introl eq_refl)).
Defined.




(* ================================================================== *)
(** ** What reaches the upstream service *)

Section PayloadFacts.
Variable rt : Runtime.

(** The request behind an upstream call of the serverless handler. *)
Lemma netlify_handler_post_request env ev u p t k :
  netlify.handler rt env ev = Post u p t k ->
  exists token d q limit,
    netlify.LEAK_API_TOKEN env = Some token /\ token <> []
    /\ netlify.body_loads ev = Ok (JObj d)
    /\ q = (if truthy (dict_get d (lit "query") JNull)
            then dict_get d (lit "query") JNull
            else dict_get d (lit "request") JNull)
    /\ truthy q = true
    /\ py_int rt (dict_get d (lit "limit") (JInt 100)) = Ok limit
    /\ t = Some 30
    /\ p = JObj [(lit "token", JStr token);
                 (lit "request", JStr (py_str rt q));
                 (lit "limit", JInt limit);
                 (lit "lang", dict_get d (lit "lang") (JStr (lit "en")));
                 (lit "type", dict_get d (lit "type") (JStr (lit "json")))].
Proof.
  unfold netlify.handler, netlify.handler_try. intros H.
  fold (is_preflight ev) in H.
  destruct (is_preflight ev); [discriminate H|].
  destruct (netlify.LEAK_API_TOKEN env) as [[|c token]|];
    try discriminate H.
  destruct (netlify.body_loads ev) as [payload|e]; [|discriminate H].
  destruct payload as [| | | | | |d]; try discriminate H.
  cbn [py_get io_try] in H.
  set (q := if truthy (dict_get d (lit "query") JNull)
            then dict_get d (lit "query") JNull
            else dict_get d (lit "request") JNull).
  assert (Hq : (if truthy (dict_get d (lit "query") JNull)
                then Ok (dict_get d (lit "query") JNull)
                else Ok (dict_get d (lit "request") JNull)) = Ok q)
    by (subst q; now destruct (truthy (dict_get d (lit "query") JNull))).
  rewrite Hq in H. cbn [io_try] in H.
  destruct (truthy q) eqn:Etruthy; cbn [negb io_map] in H;
    [|discriminate H].
  destruct (py_int rt (dict_get d (lit "limit") (JInt 100))) as [limit|e]
    eqn:Elimit; cbn [io_try io_map] in H; [|discriminate H].
  injection H as <- <- <- <-.
  exists (c :: token), d, q, limit.
  repeat split; try reflexivity; try assumption. discriminate.
Qed.

Lemma math_sqrt_ok_nonneg (n : Z) (f : float) :
  math_sqrt n = Ok f -> 0 <= n.
Proof.
  unfold math_sqrt, float_of_int.
  destruct (Z.abs n <? 2 ^ 1024 - 2 ^ 970); cbn [bind]; [|discriminate].
  destruct (Z.ltb_spec n 0); [discriminate | easy].
Qed.

(** The request behind an upstream call of [search]. *)
Lemma app_search_post_request env data u p t k :
  app.search rt env data = Post u p t k ->
  exists d q limit_int cost,
    data = JObj d
    /\ dict_get d (lit "query") JNull = JStr q /\ q <> []
    /\ py_int rt (dict_get d (lit "limit") (JInt 100)) = Ok limit_int
    /\ 0 <= Z.min limit_int 10000
    /\ app.calculate_cost rt (Z.min limit_int 10000) (JStr q) = Ok cost
    /\ u = API_URL /\ t = None
    /\ p = JObj [(lit "token", JStr (app.API_TOKEN env));
                 (lit "request", JStr q);
                 (lit "limit", JInt (Z.min limit_int 10000));
                 (lit "lang", dict_get d (lit "lang") (JStr (lit "en")))]
    /\ k = (fun o => Ret (Ok (app.search_respond rt cost o))).
Proof.
  unfold app.search. intros H.
  destruct data as [| | | | | |d]; try discriminate H.
  cbn [py_get io_try] in H.
  destruct (py_int rt (dict_get d (lit "limit") (JInt 100))) as [n|e]
    eqn:Elimit; cbn [io_try] in H; [|discriminate H].
  destruct (truthy (dict_get d (lit "query") JNull)) eqn:Etruthy;
    cbn [negb] in H; [|discriminate H].
  destruct (app.calculate_cost rt (Z.min n 10000)
              (dict_get d (lit "query") JNull)) as [cost|e] eqn:Ecost;
    cbn [io_try] in H; [|discriminate H].
  injection H as <- <- <- <-.
  destruct (dict_get d (lit "query") JNull) as [| | | |q| |] eqn:Eq;
    try discriminate Ecost.
  exists d, q, n, cost.
  split; [reflexivity|]. split; [exact Eq|].
  split; [destruct q; [discriminate Etruthy | discriminate]|].
  split; [exact Elimit|]. split.
  - rewrite calculate_cost_unfold in Ecost.
    destruct (math_sqrt (Z.min n 10000 * complexity_of (wordCount rt q)))
      as [root|e] eqn:Er; [|discriminate Ecost].
    apply math_sqrt_ok_nonneg in Er.
    pose proof (complexity_range (wordCount rt q)) as Hc. nia.
  - repeat split; try reflexivity. exact Ecost.
Qed.

End PayloadFacts.

(** X9.  The payload a handler posts upstream, in each variant.  The
    serverless handler posts the keys token, request, limit, lang, type
    with a timeout of 30: the token is the configured one whatever the
    body says, the request is a string (the string form of [query], or of
    [request] when [query] is missing or empty), the limit an integer.
    The cost-aware handler posts the keys token, request, limit, lang with
    no timeout: the token is the configured one or the one written in the
    source, the request a non-empty string, the limit an integer from 0
    to 10000.  The FastAPI handler posts the five keys of its validated
    payload with a timeout of 30. *)
Theorem upstream_payload_shape (rt : Runtime) :
  (forall env ev u p t k,
      netlify.handler rt env ev = Post u p t k ->
      u = API_URL /\ t = Some 30
      /\ keys_of p = [lit "token"; lit "request"; lit "limit"; lit "lang";
                      lit "type"]
      /\ get_field p "token" = option_map JStr (netlify.LEAK_API_TOKEN env)
      /\ is_str (get_field p "request") = true
      /\ is_int (get_field p "limit") = true
      /\ exists d,
          netlify.body_loads ev = Ok (JObj d)
          /\ get_field p "request"
             = Some (JStr (py_str rt
                             (py_or (dict_get d (lit "query") JNull)
                                    (dict_get d (lit "request") JNull))))
          /\ get_field p "lang"
             = Some (dict_get d (lit "lang") (JStr (lit "en")))
          /\ get_field p "type"
             = Some (dict_get d (lit "type") (JStr (lit "json"))))
  /\ (forall env data u p t k,
         app.search rt env data = Post u p t k ->
         u = API_URL /\ t = None
         /\ keys_of p = [lit "token"; lit "request"; lit "limit"; lit "lang"]
         /\ get_field p "token"
            = Some (JStr (match env with
                          | Some token => token
                          | None => lit "5844553333:b063s6yM"
                          end))
         /\ (exists q, get_field p "request" = Some (JStr q) /\ q <> []
                       /\ get_field data "query" = Some (JStr q))
         /\ exists limit,
             get_field p "limit" = Some (JInt limit) /\ 0 <= limit <= 10000)
  /\ (forall token payload,
         exists p k,
           main.query rt token payload = Post API_URL p (Some 30) k
           /\ keys_of p = [lit "token"; lit "request"; lit "limit";
                           lit "lang"; lit "type"]
           /\ get_field p "token" = Some (JStr token)
           /\ get_field p "request" = Some (JStr (main.query_ payload))
           /\ get_field p "limit" = Some (JInt (main.limit payload))).
Proof.
  split; [|split].
  - intros env ev u p t k H.
    pose proof (netlify_handler_post rt env ev u p t k H)
      as (Hu & _ & _ & _ & _ & Htok).
    apply netlify_handler_post_request in H
      as (token & d & q & limit & Ht & _ & Hbody & Hq & _ & _ & -> & ->).
    split; [exact Hu|]. split; [reflexivity|]. split; [reflexivity|].
    split; [now rewrite Ht|]. split; [reflexivity|]. split; [reflexivity|].
    exists d. split; [exact Hbody|]. split; [|split; reflexivity].
    subst q. reflexivity.
  - intros env data u p t k H.
    apply app_search_post_request in H
      as (d & q & n & cost & -> & Hq & Hne & _ & H0 & _ & -> & -> & -> & _).
    split; [reflexivity|]. split; [reflexivity|]. split; [reflexivity|].
    split; [now destruct env|]. split.
    + exists q. split; [reflexivity|]. split; [exact Hne|].
      unfold get_field. unfold dict_get in Hq.
      destruct (dict_find d (lit "query")); [now subst | discriminate].
    + exists (Z.min n 10000). split; [reflexivity|]. lia.
  - intros token payload. do 2 eexists. split; [apply main_query_post|].
    repeat split; reflexivity.
Qed.

Lemma upstream_payload_shape_witness :
  exists k,
    app.search sample_rt None alice_request
    = Post API_URL
        (JObj [(lit "token", JStr app.API_TOKEN_default);
               (lit "request", JStr (lit "alice"));
               (lit "limit", JInt 100);
               (lit "lang", JStr (lit "en"))])
        None k
    /\ exists limit,
        get_field (JObj [(lit "token", JStr app.API_TOKEN_default);
                         (lit "request", JStr (lit "alice"));
                         (lit "limit", JInt 100);
                         (lit "lang", JStr (lit "en"))]) "limit"
        = Some (JInt limit)
        /\ 0 <= limit <= 10000.
Proof.
  eexists. split; [reflexivity|].
  exact (proj2 (proj2 (proj2 (proj2 (proj2
           (proj1 (proj2 (upstream_payload_shape sample_rt))
                  None alice_request _ _ _ _ eq_refl)))))).
Defined.

(* ================================================================== *)
(** ** Requests answered without an upstream call *)

(** X10.  The order in which the serverless handler turns a request down
    before any upstream call: a preflight is answered 200 [{"ok": true}]
    with origin "*" whatever the token and the body are; then a missing or
    empty token is answered 500 whatever the body is; then a body that is
    not JSON is answered 400; then a JSON body that is not an object is
    answered 500 by the catch-all clause, with the text of the
    [AttributeError] as detail; and, for an object with a query, a limit
    that does not convert to an integer is answered 500 the same way. *)
Theorem netlify_rejections (rt : Runtime) env ev :
  (is_preflight ev = true ->
   netlify.handler rt env ev
   = Ret (netlify.make_response rt 200 (JObj [(lit "ok", JBool true)]) None))
  /\ (is_preflight ev = false ->
      configured (netlify.LEAK_API_TOKEN env) = false ->
      netlify.handler rt env ev
      = Ret (netlify.make_response rt 500
               (JObj [(lit "error",
                       JStr (lit "Server misconfiguration: missing LEAK_API_TOKEN"))])
               (netlify.allowed_origin env)))
  /\ (is_preflight ev = false ->
      configured (netlify.LEAK_API_TOKEN env) = true ->
      (forall e,
          netlify.body_loads ev = Raise e ->
          netlify.handler rt env ev
          = Ret (netlify.make_response rt 400
                   (JObj [(lit "error",
                           JStr (lit "Invalid JSON. Expected application/json with 'query' field."))])
                   (netlify.allowed_origin env)))
      /\ (forall v,
             netlify.body_loads ev = Ok v ->
             (forall d, v <> JObj d) ->
             netlify.handler rt env ev
             = Ret (netlify.make_response rt 500
                      (JObj [(lit "error", JStr (lit "Internal server error"));
                             (lit "detail",
                              JStr (lit "'" ++ type_name v
                                      ++ lit "' object has no attribute 'get'"))])
                      (netlify.catch_all_origin env)))
      /\ (forall d e,
             netlify.body_loads ev = Ok (JObj d) ->
             truthy (py_or (dict_get d (lit "query") JNull)
                           (dict_get d (lit "request") JNull)) = true ->
             py_int rt (dict_get d (lit "limit") (JInt 100)) = Raise e ->
             netlify.handler rt env ev
             = Ret (netlify.make_response rt 500
                      (JObj [(lit "error", JStr (lit "Internal server error"));
                             (lit "detail", JStr (exn_str e))])
                      (netlify.catch_all_origin env)))).
Proof.
  unfold netlify.handler, netlify.handler_try. fold (is_preflight ev).
  split; [intros ->; reflexivity|].
  split.
  - intros -> Hc.
    now destruct (netlify.LEAK_API_TOKEN env) as [[|c token]|].
  - intros -> Hc.
    destruct (netlify.LEAK_API_TOKEN env) as [[|c token]|];
      try discriminate Hc.
    split; [|split].
    + intros e ->. reflexivity.
    + intros v -> Hv.
      destruct v as [| | | | | |d]; try reflexivity.
      now destruct (Hv d).
    + intros d e -> Hq Hl. cbn [py_get io_try]. unfold py_or in Hq.
      destruct (truthy (dict_get d (lit "query") JNull)); cbn [io_try];
        rewrite Hq; cbn [negb]; rewrite Hl; reflexivity.
Qed.

Lemma netlify_rejections_witness :
  (is_preflight (netlify.mkEvent (Some (lit "OPTIONS")) not_json) = true)
  /\ netlify.handler sample_rt (netlify.mkEnviron None None)
       (netlify.mkEvent (Some (lit "OPTIONS")) not_json)
     = Ret (netlify.make_response sample_rt 200
              (JObj [(lit "ok", JBool true)]) None).
Proof.
  split; [reflexivity|].
  exact (proj1 (netlify_rejections sample_rt (netlify.mkEnviron None None)
                  (netlify.mkEvent (Some (lit "OPTIONS")) not_json))
               eq_refl).
Defined.

Lemma calculate_cost_negative (rt : Runtime) (limit : Z) (q : pystr) :
  - 2 ^ 1000 < limit < 0 ->
  app.calculate_cost rt limit (JStr q)
  = Raise (mkExn ValueError (lit "math domain error")).
Proof.
  intros [H0 H1]. rewrite calculate_cost_unfold.
  pose proof (complexity_range (wordCount rt q)) as Hc.
  rewrite math_sqrt_negative; [reflexivity|].
  split.
  - apply Z.lt_le_trans with (- 2 ^ 1000 * 40); [now vm_compute|].
    assert (limit * 40 <= limit * complexity_of (wordCount rt q))
      by (apply Z.mul_le_mono_nonpos_l; lia).
    lia.
  - apply Z.mul_neg_pos; lia.
Qed.

Lemma calculate_cost_negative_any (rt : Runtime) (limit : Z) (q : pystr) :
  limit < 0 ->
  exists e,
    app.calculate_cost rt limit (JStr q) = Raise e
    /\ (exn_class_of e = ValueError \/ exn_class_of e = OverflowError).
Proof.
  intros H. rewrite calculate_cost_unfold.
  pose proof (complexity_range (wordCount rt q)) as Hc.
  assert (Hneg : limit * complexity_of (wordCount rt q) < 0)
    by (apply Z.mul_neg_pos; lia).
  unfold math_sqrt, float_of_int.
  destruct (Z.abs _ <? 2 ^ 1024 - 2 ^ 970); cbn [bind].
  - replace (limit * complexity_of (wordCount rt q) <? 0) with true
      by (symmetry; now apply Z.ltb_lt).
    eexists. split; [reflexivity | now left].
  - eexists. split; [reflexivity | now right].
Qed.

(** X11.  The order in which [search] of the cost-aware variant gives up
    before any upstream call, each time by an exception that leaves the
    view: a body that is not an object; then a limit that does not convert
    to an integer, even when the query is missing; then, after the 400 for
    a missing query, a query that is not a string; then a negative
    limit, on which the cost estimator raises: [ValueError] for a limit
    above [-2^1000], and [ValueError] or [OverflowError] for any negative
    limit. *)
Theorem app_rejections (rt : Runtime) env :
  (forall data,
      (forall d, data <> JObj d) ->
      app.search rt env data = Ret (Raise (no_attribute data "get")))
  /\ (forall d e,
         py_int rt (dict_get d (lit "limit") (JInt 100)) = Raise e ->
         app.search rt env (JObj d) = Ret (Raise e))
  /\ (forall d n query,
         py_int rt (dict_get d (lit "limit") (JInt 100)) = Ok n ->
         dict_get d (lit "query") JNull = query ->
         truthy query = true ->
         (forall q, query <> JStr q) ->
         app.search rt env (JObj d)
         = Ret (Raise (no_attribute query "split")))
  /\ (forall d n q,
         py_int rt (dict_get d (lit "limit") (JInt 100)) = Ok n ->
         dict_get d (lit "query") JNull = JStr q -> q <> [] ->
         - 2 ^ 1000 < n < 0 ->
         app.search rt env (JObj d)
         = Ret (Raise (mkExn ValueError (lit "math domain error"))))
  /\ (forall d n q,
         py_int rt (dict_get d (lit "limit") (JInt 100)) = Ok n ->
         dict_get d (lit "query") JNull = JStr q -> q <> [] ->
         n < 0 ->
         exists e,
           app.search rt env (JObj d) = Ret (Raise e)
           /\ (exn_class_of e = ValueError
               \/ exn_class_of e = OverflowError)).
Proof.
  unfold app.search. split; [|split; [|split; [|split]]].
  - intros data H. destruct data as [| | | | | |d]; try reflexivity.
    now destruct (H d).
  - intros d e Hl. cbn [py_get io_try]. now rewrite Hl.
  - intros d n query Hl Hq Ht Hs. cbn [py_get io_try].
    rewrite Hl, Hq. cbn [io_try]. rewrite Ht. cbn [negb].
    destruct query as [| | | |q| |]; try reflexivity.
    now destruct (Hs q).
  - intros d n q Hl Hq Hne Hn. cbn [py_get io_try].
    rewrite Hl, Hq. cbn [io_try].
    destruct q as [|c q]; [congruence|]. cbn [truthy negb].
    rewrite Z.min_l by lia.
    rewrite (calculate_cost_negative rt n (c :: q) Hn). reflexivity.
  - intros d n q Hl Hq Hne Hn. cbn [py_get io_try].
    rewrite Hl, Hq. cbn [io_try].
    destruct q as [|c q]; [congruence|]. cbn [truthy negb].
    rewrite Z.min_l by lia.
    destruct (calculate_cost_negative_any rt n (c :: q) Hn)
      as (e & -> & Hclass).
    exists e. split; [reflexivity | exact Hclass].
Qed.

Lemma app_rejections_witness :
  (- 2 ^ 1000 < -5 < 0)
  /\ app.search sample_rt None
       (JObj [(lit "query", JStr (lit "alice")); (lit "limit", JInt (-5))])
     = Ret (Raise (mkExn ValueError (lit "math domain error"))).
Proof.
  split; [split; reflexivity|].
  exact (proj1 (proj2 (proj2 (proj2 (app_rejections sample_rt None))))
               [(lit "query", JStr (lit "alice")); (lit "limit", JInt (-5))]
               (-5) (lit "alice") eq_refl eq_refl
               ltac:(discriminate) (conj eq_refl eq_refl)).
Defined.

(* ================================================================== *)
(** ** When the upstream call itself fails *)

(** X12.  When [requests.post] raises.  The serverless handler answers a
    [requests] exception with 502, error "Upstream request failed" and
    the text of the exception as detail, and any other exception with the
    500 of the catch-all clause.  The FastAPI handler raises
    [HTTPException] 502 for a [requests] exception and lets any other
    exception out.  The cost-aware handler answers every exception with
    500 and the text of the exception as error. *)
Theorem transport_failure (rt : Runtime) (e : exn) :
  (forall env ev u p t k,
      netlify.handler rt env ev = Post u p t k ->
      k (PostRaised e)
      = Ret (if is_RequestException e
             then netlify.make_response rt 502
                    (JObj [(lit "error", JStr (lit "Upstream request failed"));
                           (lit "detail", JStr (exn_str e))])
                    (netlify.allowed_origin env)
             else netlify.make_response rt 500
                    (JObj [(lit "error", JStr (lit "Internal server error"));
                           (lit "detail", JStr (exn_str e))])
                    (netlify.catch_all_origin env)))
  /\ (forall token payload,
         answer (PostRaised e) (main.query rt token payload)
         = if is_HTTPError e
           then main.HTTPException_502
                  (lit "Upstream HTTP error: " ++ exn_str e)
           else if is_RequestException e
                then main.HTTPException_502
                       (lit "Upstream request failed: " ++ exn_str e)
                else Raise e)
  /\ (forall env data u p t k,
         app.search rt env data = Post u p t k ->
         k (PostRaised e)
         = Ret (Ok (JObj [(lit "error", JStr (exn_str e))], 500))).
Proof.
  split; [|split].
  - intros env ev u p t k H.
    apply netlify_handler_post in H as (_ & _ & Hk & _).
    rewrite Hk. unfold netlify.after_post.
    now destruct (is_RequestException e).
  - intros token payload. reflexivity.
  - intros env data u p t k H.
    apply app_search_post in H as (query & n & lang & cost & _ & _ & ->).
    reflexivity.
Qed.

Lemma transport_failure_witness :
  exists k,
    netlify.handler sample_rt (env_with_token "secret")
                    (post_event alice_request)
    = Post API_URL
        (JObj [(lit "token", JStr (lit "secret"));
               (lit "request", JStr (lit "alice"));
               (lit "limit", JInt 100);
               (lit "lang", JStr (lit "en"));
               (lit "type", JStr (lit "json"))])
        (Some 30) k
    /\ k (PostRaised (mkExn Timeout (lit "Read timed out.")))
       = Ret (netlify.make_response sample_rt 502
                (JObj [(lit "error", JStr (lit "Upstream request failed"));
                       (lit "detail", JStr (lit "Read timed out."))])
                None).
Proof.
  eexists. split; [reflexivity|].
  exact (proj1 (transport_failure sample_rt
                  (mkExn Timeout (lit "Read timed out.")))
               (env_with_token "secret") (post_event alice_request)
               _ _ _ _ eq_refl).
Defined.

(* ================================================================== *)
(** ** The success path *)

(** X13.  When the upstream reply has a success status and a JSON body,
    the serverless handler answers 200 with the body unchanged as [raw]
    and its summary as [summary]; when the summarizer raises on the body
    it answers the 500 of the catch-all clause instead.  The FastAPI
    handler returns the same pair, and lets the exception of the
    summarizer out.  The summarizer returns exactly when the body is
    safe in the sense of [summarize_safe]. *)
Theorem success_reply (rt : Runtime) (r : Response.t) (raw : json) :
  Response.ok r = true ->
  Response.json_body r = Ok raw ->
  (forall env ev u p t k,
      netlify.handler rt env ev = Post u p t k ->
      k (Replied r)
      = Ret match netlify.summarize rt raw with
            | Ok summary =>
                netlify.make_response rt 200
                  (JObj [(lit "raw", raw); (lit "summary", JStr summary)])
                  (netlify.allowed_origin env)
            | Raise e =>
                netlify.make_response rt 500
                  (JObj [(lit "error", JStr (lit "Internal server error"));
                         (lit "detail", JStr (exn_str e))])
                  (netlify.catch_all_origin env)
            end)
  /\ (forall token payload,
         answer (Replied r) (main.query rt token payload)
         = match main.summarize rt raw with
           | Ok summary =>
               Ok (JObj [(lit "raw", raw); (lit "summary", JStr summary)])
           | Raise e => Raise e
           end)
  /\ (summarize_safe raw = true ->
      (exists summary, netlify.summarize rt raw = Ok summary)
      /\ exists summary, main.summarize rt raw = Ok summary).
Proof.
  intros Hok Hjson. split; [|split].
  - intros env ev u p t k H.
    apply netlify_handler_post in H as (_ & _ & Hk & _).
    rewrite Hk. unfold netlify.after_post. rewrite Hok, Hjson.
    cbn [negb]. now destruct (netlify.summarize rt raw).
  - intros token payload. rewrite main_query_post. unfold answer.
    cbn [run snd]. rewrite (raise_for_status_ok r Hok). cbn [bind].
    rewrite Hjson. unfold main.query_result.
    now destruct (main.summarize rt raw).
  - intros Hs. unfold main.summarize, netlify.summarize.
    assert (H : forall api, exists text, summarize rt api raw = Ok text).
    { intros api. unfold summarize_safe in Hs. unfold summarize.
      destruct raw as [| | | | | |d]; try (now eexists).
      destruct (dict_has d (lit "Error code")); cbn [orb] in Hs;
        [now eexists|].
      destruct (dict_find d (lit "List")) as [[| | | | | |dbs]|];
        try (now eexists).
      apply (dbs_loop_ok_iff rt dbs []) in Hs as (parts & ->).
      now eexists. }
    split; apply H.
Qed.

Lemma success_reply_witness :
  (Response.ok (Response.mk 200 (lit "OK") API_URL [] (Ok db1_reply)) = true)
  /\ answer (Replied (Response.mk 200 (lit "OK") API_URL [] (Ok db1_reply)))
            (main.query sample_rt (lit "secret")
               (main.QueryPayload_init (lit "alice") None None None))
     = Ok (JObj [(lit "raw", db1_reply); (lit "summary", JStr db1_summary)]).
Proof.
  split; [reflexivity|].
  exact (proj1 (proj2 (success_reply sample_rt
                         (Response.mk 200 (lit "OK") API_URL [] (Ok db1_reply))
                         db1_reply eq_refl eq_refl))
               (lit "secret")
               (main.QueryPayload_init (lit "alice") None None None)).
Defined.

(* ================================================================== *)
(** ** What the cost-aware handler makes of a reply *)

(** X14.  The cost-aware handler does not look at the upstream status:
    its response depends on the decoded body alone, so an upstream error
    status with a JSON object as body is answered 200.  A decoded body
    that is not an object: an array or a string is returned as it is with
    200 unless it holds "List" (as an item, as a substring), in which
    case the assignment of the cost fails and the answer is 500; [null],
    a boolean or a number is answered 500. *)
Theorem app_reply_handling (rt : Runtime) env data u p t k :
  app.search rt env data = Post u p t k ->
  (forall r1 r2,
      Response.json_body r1 = Response.json_body r2 ->
      k (Replied r1) = k (Replied r2))
  /\ (forall r m,
         Response.json_body r = Ok (JObj m) ->
         exists body, k (Replied r) = Ret (Ok (JObj body, 200)))
  /\ (forall r l,
         Response.json_body r = Ok (JArr l) ->
         k (Replied r)
         = Ret (Ok (if existsb (fun e => match e with
                                         | JStr s => str_eqb s (lit "List")
                                         | _ => false
                                         end) l
                    then (JObj [(lit "error",
                                 JStr (lit "list indices must be integers or slices, not str"))],
                          500)
                    else (JArr l, 200))))
  /\ (forall r s,
         Response.json_body r = Ok (JStr s) ->
         k (Replied r)
         = Ret (Ok (if contains s (lit "List")
                    then (JObj [(lit "error",
                                 JStr (lit "'str' object does not support item assignment"))],
                          500)
                    else (JStr s, 200))))
  /\ (forall r v,
         Response.json_body r = Ok v ->
         match v with
         | JNull | JBool _ | JInt _ | JFloat _ => True
         | _ => False
         end ->
         k (Replied r)
         = Ret (Ok (JObj [(lit "error",
                           JStr (lit "argument of type '" ++ type_name v
                                   ++ lit "' is not iterable"))],
                    500))).
Proof.
  intros H.
  apply app_search_post in H as (query & n & lang & cost & _ & _ & ->).
  unfold app.search_respond, app.search_try.
  split; [|split; [|split; [|split]]].
  - intros r1 r2 ->. reflexivity.
  - intros r m ->. cbn [bind py_in].
    destruct (dict_has m (lit "List")); eexists; reflexivity.
  - intros r l ->. cbn [bind py_in].
    now destruct (existsb _ l).
  - intros r s ->. cbn [bind py_in].
    now destruct (contains s (lit "List")).
  - intros r v -> Hv. destruct v; try contradiction; reflexivity.
Qed.

Lemma app_reply_handling_witness :
  exists k,
    app.search sample_rt None alice_request
    = Post API_URL
        (JObj [(lit "token", JStr app.API_TOKEN_default);
               (lit "request", JStr (lit "alice"));
               (lit "limit", JInt 100);
               (lit "lang", JStr (lit "en"))])
        None k
    /\ k (reply 503 (lit "busy") (Ok (JArr [JStr (lit "busy")])))
       = Ret (Ok (JArr [JStr (lit "busy")], 200)).
Proof.
  eexists. split; [reflexivity|].
  exact (proj1 (proj2 (proj2
           (app_reply_handling sample_rt None alice_request _ _ _ _ eq_refl)))
               (Response.mk 503 (lit "") API_URL (lit "busy")
                            (Ok (JArr [JStr (lit "busy")])))
               [JStr (lit "busy")] eq_refl).
Defined.

(* ================================================================== *)
(** ** Words of a query *)

Lemma split_ws_from_app (sp : char) (a b : pystr) :
  isspace sp = true ->
  forall cur,
    split_ws_from cur (a ++ sp :: b)
    = split_ws_from cur a ++ split_ws_from [] b.
Proof.
  intros Hsp. induction a as [|c a IH]; intros cur; simpl.
  - rewrite Hsp. now destruct cur.
  - destruct (isspace c).
    + destruct cur; simpl; now rewrite IH.
    + apply IH.
Qed.

Lemma split_ws_app (sp : char) (a b : pystr) :
  isspace sp = true ->
  split_ws (a ++ sp :: b) = split_ws a ++ split_ws b.
Proof. intros H. now apply split_ws_from_app. Qed.

(** X15.  The word count of the cost estimator is additive over
    whitespace: the significant words of two queries joined by a
    whitespace character are those of the one and those of the other.
    So appending tokens that are short or purely numeric to a query does
    not change its cost. *)
Theorem word_count_additive (rt : Runtime) (sp : char) (a b : pystr) :
  isspace sp = true ->
  wordCount rt (a ++ sp :: b) = wordCount rt a + wordCount rt b
  /\ (wordCount rt b = 0 ->
      forall limit,
        app.calculate_cost rt limit (JStr (a ++ sp :: b))
        = app.calculate_cost rt limit (JStr a)).
Proof.
  intros Hsp.
  assert (H : wordCount rt (a ++ sp :: b) = wordCount rt a + wordCount rt b).
  { unfold wordCount. rewrite (split_ws_app sp a b Hsp), filter_app,
      length_app. apply Nat2Z.inj_add. }
  split; [exact H|].
  intros Hb limit. rewrite !calculate_cost_unfold, H, Hb.
  now rewrite Z.add_0_r.
Qed.

Lemma word_count_additive_witness :
  isspace 32%N = true
  /\ wordCount sample_rt (lit "alice smith" ++ 32%N :: lit "1990 nyc")
     = wordCount sample_rt (lit "alice smith")
       + wordCount sample_rt (lit "1990 nyc").
Proof.
  split; [reflexivity|].
  exact (proj1 (word_count_additive sample_rt 32%N (lit "alice smith")
                  (lit "1990 nyc") eq_refl)).
Defined.

(* ================================================================== *)
(** ** The first allowed origin, in two variants *)

Lemma split_sep_from_cons (sep : char) (s : pystr) :
  forall cur,
    exists rest,
      split_sep_from sep cur s = (rev cur ++ before_sep sep s) :: rest.
Proof.
  induction s as [|x s IH]; intros cur; simpl.
  - exists []. now rewrite app_nil_r.
  - destruct (char_eqb x sep).
    + eexists. now rewrite app_nil_r.
    + destruct (IH (x :: cur)) as (rest & ->). exists rest.
      simpl. now rewrite <- app_assoc.
Qed.

(** X16.  When the first entry of [ALLOWED_ORIGINS] is not blank, the
    serverless variant and the FastAPI variant agree on it: it is the
    origin the former allows and the first origin the latter hands to the
    CORS middleware. *)
Theorem first_origin_agrees (origins : option pystr) (token : option pystr) :
  first_origin (netlify.mkEnviron token origins) <> [] ->
  netlify.allowed_origin (netlify.mkEnviron token origins)
  = Some (first_origin (netlify.mkEnviron token origins))
  /\ hd [] (main.origins origins)
     = first_origin (netlify.mkEnviron token origins).
Proof.
  intros Hne. split.
  - unfold netlify.allowed_origin.
    destruct (strip (netlify.getenv_origins (netlify.mkEnviron token origins)))
      as [|c s] eqn:E.
    + now apply first_origin_of_blank in E.
    + rewrite <- E. unfold first_origin.
      now rewrite (strip_before_sep_strip 44%N _ comma_not_space).
  - unfold main.origins, split_sep, first_origin in *.
    change (netlify.getenv_origins (netlify.mkEnviron token origins))
      with (main.ALLOWED_ORIGINS origins) in *.
    destruct (split_sep_from_cons 44%N (main.ALLOWED_ORIGINS origins) [])
      as (rest & ->).
    cbn [rev app filter].
    destruct (strip (before_sep 44%N (main.ALLOWED_ORIGINS origins)))
      as [|c s] eqn:E; [congruence|].
    cbn [map hd]. exact E.
Qed.

Lemma first_origin_agrees_witness :
  first_origin (netlify.mkEnviron None
                  (Some (lit " https://a.example , https://b.example")))
  <> []
  /\ hd [] (main.origins (Some (lit " https://a.example , https://b.example")))
     = lit "https://a.example".
Proof.
  split; [discriminate|].
  exact (proj2 (first_origin_agrees
                  (Some (lit " https://a.example , https://b.example")) None
                  ltac:(discriminate))).
Defined.

(* ================================================================== *)
(** ** The cap on the limit *)

(** The limit an absent [limit] field converts to. *)
Lemma py_int_default (rt : Runtime) (d : dict) :
  dict_find d (lit "limit") = None ->
  py_int rt (dict_get d (lit "limit") (JInt 100)) = Ok 100.
Proof. intros H. unfold dict_get. now rewrite H. Qed.

(** C2 (a defect of [netlify/functions/query.py] and [main.py]).  The
    cost-aware variant forwards min(int(limit), 10000), as claimed: for
    every request with a non-empty string query whose limit converts to
    an integer that is not negative, and for every request it forwards at
    all; exactly 10000 for any limit above 10000, and 100 when the limit
    field is absent.  The two other variants miss the cap: on the limit
    20000 the serverless handler (query under [query] or under [request])
    and the FastAPI handler forward 20000. *)
Theorem limit_cap_only_in_app (rt : Runtime) :
  (forall env d q n,
      dict_find d (lit "query") = Some (JStr q) -> q <> [] ->
      py_int rt (dict_get d (lit "limit") (JInt 100)) = Ok n ->
      0 <= n ->
      forwarded_limit (app.search rt env (JObj d))
      = Some (JInt (Z.min n 10000))
      /\ (10000 < n ->
          forwarded_limit (app.search rt env (JObj d)) = Some (JInt 10000)))
  /\ (forall d,
         dict_find d (lit "limit") = None ->
         py_int rt (dict_get d (lit "limit") (JInt 100)) = Ok 100)
  /\ (forall env data u p t k,
         app.search rt env data = Post u p t k ->
         exists d n,
           data = JObj d
           /\ py_int rt (dict_get d (lit "limit") (JInt 100)) = Ok n
           /\ forwarded_limit (app.search rt env data)
              = Some (JInt (Z.min n 10000)))
  /\ forwarded_limit
       (netlify.handler rt (env_with_token "secret")
          (post_event (JObj [(lit "query", JStr (lit "alice"));
                             (lit "limit", JInt 20000)])))
     = Some (JInt 20000)
  /\ forwarded_limit
       (netlify.handler rt (env_with_token "secret")
          (post_event (JObj [(lit "request", JStr (lit "alice"));
                             (lit "limit", JInt 20000)])))
     = Some (JInt 20000)
  /\ forwarded_limit
       (main.query rt (lit "secret")
          (main.QueryPayload_init (lit "alice") (Some 20000) None None))
     = Some (JInt 20000).
Proof.
  split; [|split; [|split; [|repeat split; reflexivity]]].
  - intros env d q n Hq Hne Hl H0.
    rewrite (app_search_valid rt env d q n Hq Hne Hl H0).
    split; [reflexivity|]. intros H. now rewrite Z.min_r by lia.
  - exact (py_int_default rt).
  - intros env data u p t k H. rewrite H.
    apply app_search_post_request in H
      as (d & q & n & cost & -> & _ & _ & Hl & _ & _ & _ & _ & -> & _).
    exists d, n. split; [reflexivity|]. split; [exact Hl | reflexivity].
Qed.

Lemma limit_cap_only_in_app_witness :
  (lit "alice smith" <> []
   /\ py_int sample_rt (JFloat 20000.5%float) = Ok 20000
   /\ 0 <= 20000)
  /\ forwarded_limit
       (app.search sample_rt None
          (JObj [(lit "query", JStr (lit "alice smith"));
                 (lit "limit", JFloat 20000.5%float)]))
     = Some (JInt 10000).
Proof.
  split; [split; [discriminate | split; [reflexivity | discriminate]]|].
  exact (proj1 (proj1 (limit_cap_only_in_app sample_rt) None
                  [(lit "query", JStr (lit "alice smith"));
                   (lit "limit", JFloat 20000.5%float)]
                  (lit "alice smith") 20000
                  eq_refl ltac:(discriminate) eq_refl ltac:(discriminate))).
Defined.
